(** * fairseq_signals.models: the model registry and the dynamic builder

    A shallow embedding of [fairseq_signals/models/__init__.py]: the six
    module-level registry dictionaries, the two registration decorators
    ([register_model], [register_model_architecture]) and the two build
    entry points ([build_model], [build_model_from_checkpoint]).

    Python dictionaries keyed by names are finite maps [gmap string _];
    configuration objects keep their fields in insertion order, as Python
    dictionaries and attribute namespaces do.  Exceptions are values of
    [exn]; a call that raises keeps every mutation it performed before
    the [raise], exactly as the interpreter does. *)

From Stdlib Require Import ZArith.
From Stdlib Require Import DecimalString.
From stdpp Require Import gmap strings list fin_maps sorting.

Local Open Scope string_scope.

(** ** Python values and configuration objects *)

(** The values a configuration field can hold. *)
#[warnings="-register-all"]
Inductive value : Type :=
| VNone
| VBool (b : bool)
| VInt (z : Z)
| VStr (s : string)
| VDict (items : list (string * value)).

(** Fields of a mapping or attributes of an object, in insertion order. *)
Abbreviation fields := (list (string * value)).

(** The objects [build_model] receives as [cfg].  [Node (VDict items)] is an
    [omegaconf.DictConfig]; [Node v] for another [v] is the bare value that
    indexing a [DictConfig] returns for a scalar entry. *)
Inductive cfg : Type :=
| Namespace (attrs : fields)          (* argparse.Namespace *)
| DataclassInstance (attrs : fields)  (* an instance of a Dataclass subclass *)
| PlainDict (items : fields)          (* a Python dict *)
| Node (v : value).

Definition DictConfig (items : fields) : cfg := Node (VDict items).

(** Python truthiness ([bool(v)]). *)
Definition truthy (v : value) : bool :=
  match v with
  | VNone => false
  | VBool b => b
  | VInt z => negb (z =? 0)%Z
  | VStr s => negb (String.eqb s "")
  | VDict items => negb (Nat.eqb (length items) 0)
  end.

(** [a or b]. *)
Definition py_or (a b : value) : value := if truthy a then a else b.

(** Lookup of a key in an ordered field list. *)
Fixpoint get_field (k : string) (fs : fields) : option value :=
  match fs with
  | [] => None
  | (k', v) :: fs' => if String.eqb k k' then Some v else get_field k fs'
  end.

Definition has_field (k : string) (fs : fields) : bool :=
  match get_field k fs with Some _ => true | None => false end.

(** Assignment to a key: an existing entry is overwritten in place, a new
    one is appended. *)
Fixpoint set_field (k : string) (v : value) (fs : fields) : fields :=
  match fs with
  | [] => [(k, v)]
  | (k', v') :: fs' =>
      if String.eqb k k' then (k, v) :: fs' else (k', v') :: set_field k v fs'
  end.

(** ** Exceptions *)

(** Pieces of an error message.  [str()] of a configuration object, of a
    dictionary key view and of a class are kept symbolic. *)
Inductive fragment : Type :=
| Text (s : string)
| StrCfg (c : cfg)
| StrKeys (keys : gset string)
| StrClass (name : string).

Abbreviation message := (list fragment).

Inductive exn : Type :=
| ValueError (msg : message)
| AssertionError (msg : message)
| Exception (msg : message)
| TypeError (msg : message)
| KeyError (key : value)
| AttributeError (name : string)
| ConfigKeyError (key : string)
| OtherError (msg : message).

(** The result of a call: a value or a raised exception. *)
Inductive outcome (A : Type) : Type :=
| Ok (a : A)
| Raise (e : exn).
Arguments Ok {A} a.
Arguments Raise {A} e.

#[export] Instance outcome_ret : MRet outcome := λ A a, Ok a.
#[export] Instance outcome_bind : MBind outcome := λ A B f m,
  match m with
  | Ok a => f a
  | Raise e => Raise e
  end.

(** ** Classes, schemas and architecture functions *)

(** A class object passed to the [register_model] decorator:
    [cls.__name__] and whether [issubclass(cls, BaseModel)]. *)
Record pyclass : Type := PyClass {
  cls_name : string;
  cls_extends_BaseModel : bool
}.

(** A schema class passed as [dataclass]: its name, whether
    [issubclass(dataclass, Dataclass)], and the fields of a freshly
    constructed instance [dataclass()].  Constructing the schema can raise
    (a field without default, a failing [__post_init__]), and so can
    giving the instance its [_name] and storing it in the configuration
    store (a frozen schema, a node the store refuses): [dc_init_error] and
    [dc_store_error] are the exceptions these steps raise, if any. *)
Record dataclass : Type := PyDataclass {
  dc_name : string;
  dc_extends_Dataclass : bool;
  dc_defaults : fields;
  dc_init_error : option exn;
  dc_store_error : option exn
}.

(** [dataclass()]. *)
Definition construct (dc : dataclass) : outcome fields :=
  match dc_init_error dc with
  | Some e => Raise e
  | None => Ok (dc_defaults dc)
  end.

(** Lines 148-149, [node._name = name] and [cs.store(...)]: the node that
    is stored, unless one of the two raises. *)
Definition named_node (dc : dataclass) (name : string) (node : fields)
    : outcome fields :=
  match dc_store_error dc with
  | Some e => Raise e
  | None => Ok (set_field "_name" (VStr name) node)
  end.

(** The objects passed to the [register_model_architecture] decorator.
    An architecture function mutates its argument in place; the embedding
    returns the mutated configuration. *)
Inductive pyfn : Type :=
| Noop                                            (* def noop(_): pass *)
| ArchFn (name : string) (body : cfg → outcome cfg)
| NotCallable (repr : string).

Definition callable (fn : pyfn) : bool :=
  match fn with
  | NotCallable _ => false
  | _ => true
  end.

(** [fn(cfg)], returning the configuration as the call leaves it. *)
Definition call_fn (fn : pyfn) (c : cfg) : outcome cfg :=
  match fn with
  | Noop => Ok c
  | ArchFn _ body => body c
  | NotCallable r => Raise (TypeError [Text r; Text " object is not callable"])
  end.

(** ** The module state *)

(** The six registries of the module, the [__dataclass] attribute the
    decorator sets on each class object (keyed by class name) and the
    [model] group of hydra's [ConfigStore]. *)
Record registries : Type := Registries {
  MODEL_REGISTRY : gmap string pyclass;
  MODEL_DATACLASS_REGISTRY : gmap string dataclass;
  ARCH_MODEL_REGISTRY : gmap string pyclass;
  ARCH_MODEL_NAME_REGISTRY : gmap string string;
  ARCH_MODEL_INV_REGISTRY : gmap string (list string);
  ARCH_CONFIG_REGISTRY : gmap string pyfn;
  CLASS_DATACLASS : gmap string (option dataclass);
  CONFIG_STORE : gmap string fields
}.

Definition empty_registries : registries :=
  Registries ∅ ∅ ∅ ∅ ∅ ∅ ∅ ∅.

Definition set_MODEL_REGISTRY (f : gmap string pyclass → gmap string pyclass)
    (s : registries) : registries :=
  Registries (f (MODEL_REGISTRY s)) (MODEL_DATACLASS_REGISTRY s)
    (ARCH_MODEL_REGISTRY s) (ARCH_MODEL_NAME_REGISTRY s)
    (ARCH_MODEL_INV_REGISTRY s) (ARCH_CONFIG_REGISTRY s)
    (CLASS_DATACLASS s) (CONFIG_STORE s).

Definition set_MODEL_DATACLASS_REGISTRY
    (f : gmap string dataclass → gmap string dataclass)
    (s : registries) : registries :=
  Registries (MODEL_REGISTRY s) (f (MODEL_DATACLASS_REGISTRY s))
    (ARCH_MODEL_REGISTRY s) (ARCH_MODEL_NAME_REGISTRY s)
    (ARCH_MODEL_INV_REGISTRY s) (ARCH_CONFIG_REGISTRY s)
    (CLASS_DATACLASS s) (CONFIG_STORE s).

Definition set_ARCH_MODEL_REGISTRY
    (f : gmap string pyclass → gmap string pyclass)
    (s : registries) : registries :=
  Registries (MODEL_REGISTRY s) (MODEL_DATACLASS_REGISTRY s)
    (f (ARCH_MODEL_REGISTRY s)) (ARCH_MODEL_NAME_REGISTRY s)
    (ARCH_MODEL_INV_REGISTRY s) (ARCH_CONFIG_REGISTRY s)
    (CLASS_DATACLASS s) (CONFIG_STORE s).

Definition set_ARCH_MODEL_NAME_REGISTRY
    (f : gmap string string → gmap string string)
    (s : registries) : registries :=
  Registries (MODEL_REGISTRY s) (MODEL_DATACLASS_REGISTRY s)
    (ARCH_MODEL_REGISTRY s) (f (ARCH_MODEL_NAME_REGISTRY s))
    (ARCH_MODEL_INV_REGISTRY s) (ARCH_CONFIG_REGISTRY s)
    (CLASS_DATACLASS s) (CONFIG_STORE s).

Definition set_ARCH_MODEL_INV_REGISTRY
    (f : gmap string (list string) → gmap string (list string))
    (s : registries) : registries :=
  Registries (MODEL_REGISTRY s) (MODEL_DATACLASS_REGISTRY s)
    (ARCH_MODEL_REGISTRY s) (ARCH_MODEL_NAME_REGISTRY s)
    (f (ARCH_MODEL_INV_REGISTRY s)) (ARCH_CONFIG_REGISTRY s)
    (CLASS_DATACLASS s) (CONFIG_STORE s).

Definition set_ARCH_CONFIG_REGISTRY
    (f : gmap string pyfn → gmap string pyfn)
    (s : registries) : registries :=
  Registries (MODEL_REGISTRY s) (MODEL_DATACLASS_REGISTRY s)
    (ARCH_MODEL_REGISTRY s) (ARCH_MODEL_NAME_REGISTRY s)
    (ARCH_MODEL_INV_REGISTRY s) (f (ARCH_CONFIG_REGISTRY s))
    (CLASS_DATACLASS s) (CONFIG_STORE s).

Definition set_CLASS_DATACLASS
    (f : gmap string (option dataclass) → gmap string (option dataclass))
    (s : registries) : registries :=
  Registries (MODEL_REGISTRY s) (MODEL_DATACLASS_REGISTRY s)
    (ARCH_MODEL_REGISTRY s) (ARCH_MODEL_NAME_REGISTRY s)
    (ARCH_MODEL_INV_REGISTRY s) (ARCH_CONFIG_REGISTRY s)
    (f (CLASS_DATACLASS s)) (CONFIG_STORE s).

Definition set_CONFIG_STORE
    (f : gmap string fields → gmap string fields)
    (s : registries) : registries :=
  Registries (MODEL_REGISTRY s) (MODEL_DATACLASS_REGISTRY s)
    (ARCH_MODEL_REGISTRY s) (ARCH_MODEL_NAME_REGISTRY s)
    (ARCH_MODEL_INV_REGISTRY s) (ARCH_CONFIG_REGISTRY s)
    (CLASS_DATACLASS s) (f (CONFIG_STORE s)).

(** ** Statements that mutate the registries and may raise *)

(** A computation over the module state.  The state is returned on both
    outcomes: what was written before a [raise] stays written. *)
Definition M (A : Type) : Type := registries → outcome A * registries.

Definition ret {A} (a : A) : M A := λ s, (Ok a, s).
Definition raise {A} (e : exn) : M A := λ s, (Raise e, s).
Definition bind {A B} (m : M A) (k : A → M B) : M B := λ s,
  match m s with
  | (Ok a, s') => k a s'
  | (Raise e, s') => (Raise e, s')
  end.
Definition get : M registries := λ s, (Ok s, s).
Definition modify (f : registries → registries) : M unit := λ s, (Ok tt, f s).

Notation "'do' x <- m ; k" := (bind m (λ x, k))
  (at level 10, x name, m at level 100, k at level 200).
Notation "m ;;; k" := (bind m (λ _, k))
  (at level 100, k at level 200, right associativity).

(** [k in d] for a dictionary keyed by names. *)
Definition in_dict {V} (k : string) (d : gmap string V) : bool :=
  bool_decide (is_Some (d !! k)).

(** [d[k]], raising [KeyError] on a missing key. *)
Definition getitem {V} (d : gmap string V) (k : string) : outcome V :=
  match d !! k with
  | Some v => Ok v
  | None => Raise (KeyError (VStr k))
  end.

Definition lift {A} (o : outcome A) : M A := λ s, (o, s).

(** ** Registration *)

(** [register_model_architecture(model_name, arch_name)(fn)]. *)
Definition register_model_architecture (model_name arch_name : string)
    (fn : pyfn) : M pyfn :=
  do s <- get;
  if negb (in_dict model_name (MODEL_REGISTRY s)) then
    raise (ValueError
      [Text "Cannot register model architecture for unknown model type (";
       Text model_name; Text ")"])
  else if in_dict arch_name (ARCH_MODEL_REGISTRY s) then
    raise (ValueError
      [Text "Cannot register duplicate model architecture (";
       Text arch_name; Text ")"])
  else if negb (callable fn) then
    raise (ValueError
      [Text "Model architecture must be callable ("; Text arch_name; Text ")"])
  else
    do cls <- lift (getitem (MODEL_REGISTRY s) model_name);
    modify (set_ARCH_MODEL_REGISTRY <[arch_name := cls]>) ;;;
    modify (set_ARCH_MODEL_NAME_REGISTRY <[arch_name := model_name]>) ;;;
    modify (set_ARCH_MODEL_INV_REGISTRY (λ inv,
      <[model_name := (default [] (inv !! model_name) ++ [arch_name])%list]> inv)) ;;;
    modify (set_ARCH_CONFIG_REGISTRY <[arch_name := fn]>) ;;;
    ret fn.

(** [register_model(name, dataclass)(cls)]. *)
Definition register_model (name : string) (dataclass : option dataclass)
    (cls : pyclass) : M pyclass :=
  do s <- get;
  if in_dict name (MODEL_REGISTRY s) then
    raise (ValueError
      [Text "Cannot register duplicate model ("; Text name; Text ")"])
  else if negb (cls_extends_BaseModel cls) then
    raise (ValueError
      [Text "Model ("; Text name; Text ": "; Text (cls_name cls);
       Text ") must extend BaseModel"])
  else
    modify (set_MODEL_REGISTRY <[name := cls]>) ;;;
    match dataclass with
    | Some dc =>
        if negb (dc_extends_Dataclass dc) then
          raise (ValueError
            [Text "Dataclass "; StrClass (dc_name dc);
             Text " must extend Dataclass"])
        else
          modify (set_CLASS_DATACLASS <[cls_name cls := Some dc]>) ;;;
          modify (set_MODEL_DATACLASS_REGISTRY <[name := dc]>) ;;;
          do node <- lift (construct dc);
          do node <- lift (named_node dc name node);
          modify (set_CONFIG_STORE <[name := node]>) ;;;
          register_model_architecture name name Noop ;;;
          ret cls
    | None =>
        modify (set_CLASS_DATACLASS <[cls_name cls := None]>) ;;;
        ret cls
    end.

(** A registration call, as a model-definition module issues it at load
    time. *)
Inductive call : Type :=
| RegisterModel (name : string) (dataclass : option dataclass) (cls : pyclass)
| RegisterModelArchitecture (model_name arch_name : string) (fn : pyfn).

(** The state a call leaves behind, whether it returned or raised. *)
Definition exec_call (c : call) (s : registries) : registries :=
  match c with
  | RegisterModel name dataclass cls => (register_model name dataclass cls s).2
  | RegisterModelArchitecture m a fn => (register_model_architecture m a fn s).2
  end.

(** The state after a sequence of calls, from the empty registries the
    module starts with. *)
Definition run_calls (cs : list call) : registries :=
  foldl (λ s c, exec_call c s) empty_registries cs.

(** ** Access to configuration objects *)

(** [isinstance(cfg, argparse.Namespace)]. *)
Definition is_namespace (c : cfg) : bool :=
  match c with Namespace _ => true | _ => false end.

(** [OmegaConf.create(d)] for a Python dict [d]. *)
Definition OmegaConf_create (items : fields) : cfg := DictConfig items.

(** [hasattr(cfg, name)]: an attribute of a namespace or of a dataclass
    instance, a key of a [DictConfig].  Neither a Python dict nor a scalar
    exposes its content as attributes. *)
Definition hasattr (c : cfg) (name : string) : bool :=
  match c with
  | Namespace attrs | DataclassInstance attrs => has_field name attrs
  | Node (VDict items) => has_field name items
  | _ => false
  end.

(** [getattr(cfg, name, None)]. *)
Definition getattr (c : cfg) (name : string) : value :=
  match c with
  | Namespace attrs | DataclassInstance attrs =>
      default VNone (get_field name attrs)
  | Node (VDict items) => default VNone (get_field name items)
  | _ => VNone
  end.

(** [cfg.name = v]. *)
Definition setattr (c : cfg) (name : string) (v : value) : outcome cfg :=
  match c with
  | Namespace attrs => Ok (Namespace (set_field name v attrs))
  | DataclassInstance attrs => Ok (DataclassInstance (set_field name v attrs))
  | Node (VDict items) => Ok (Node (VDict (set_field name v items)))
  | _ => Raise (AttributeError name)
  end.

(** [len(cfg)]: namespaces, dataclass instances and most scalars have no
    length. *)
Definition py_len (c : cfg) : outcome nat :=
  match c with
  | PlainDict items | Node (VDict items) => Ok (length items)
  | Node (VStr s) => Ok (String.length s)
  | _ => Raise (TypeError [Text "object has no len()"])
  end.

(** [next(iter(cfg))]: the first key of a mapping, the first character of
    a string. *)
Definition first_key (c : cfg) : outcome string :=
  match c with
  | PlainDict ((k, _) :: _) | Node (VDict ((k, _) :: _)) => Ok k
  | Node (VStr (String a _)) => Ok (String a "")
  | PlainDict [] | Node (VDict []) | Node (VStr "") =>
      Raise (OtherError [Text "StopIteration"])
  | _ => Raise (TypeError [Text "object is not iterable"])
  end.

(** [cfg[key]]: the entry of a mapping, a nested mapping staying of the
    kind of its parent. *)
Definition cfg_getitem (c : cfg) (key : string) : outcome cfg :=
  match c with
  | Node (VDict items) =>
      match get_field key items with
      | Some v => Ok (Node v)
      | None => Raise (KeyError (VStr key))
      end
  | PlainDict items =>
      match get_field key items with
      | Some (VDict sub) => Ok (PlainDict sub)
      | Some v => Ok (Node v)
      | None => Raise (KeyError (VStr key))
      end
  | _ => Raise (TypeError [Text "object is not subscriptable"])
  end.

(** [v in d] and [d[v]] for a model type [v] read from a configuration:
    the registries are keyed by names, so only a string can be found. *)
Definition value_in_dict {V} (v : value) (d : gmap string V) : bool :=
  match v with
  | VStr k => in_dict k d
  | _ => false
  end.

Definition getitem_value {V} (d : gmap string V) (v : value) : outcome V :=
  match v with
  | VStr k => getitem d k
  | _ => Raise (KeyError v)
  end.

(** [prefix + v] where [prefix] is a string: only a string can be
    appended. *)
Definition str_concat (prefix : message) (v : value) : outcome message :=
  match v with
  | VStr s => Ok (prefix ++ [Text s])%list
  | _ => Raise (TypeError [Text "can only concatenate str to str"])
  end.

(** ** Building a model from a configuration *)

(** What [checkpoint_utils.load_checkpoint_to_cpu] returns, as far as this
    module reads it: [state["cfg"]["model"]] and [state["model"]]. *)
Record checkpoint (weights : Type) : Type := Checkpoint {
  ckpt_cfg_model : cfg;
  ckpt_model : weights
}.
Arguments Checkpoint {weights} _ _.
Arguments ckpt_cfg_model {weights} _.
Arguments ckpt_model {weights} _.

Section Build.

(** The collaborators of the builder that live outside this module: the
    two schema helpers of [fairseq_signals.dataclass.utils], the factory
    [build_model] of each model class, the checkpoint reader and the
    strict weight restoration of a model instance. *)
Context {task weights instance : Type}.
Variable merge_with_parent : fields → cfg → bool → outcome cfg.
Variable populate_dataclass : fields → cfg → outcome cfg.
Variable cls_build_model : pyclass → cfg → option task → outcome instance.
Variable load_checkpoint_to_cpu : string → outcome (checkpoint weights).
Variable load_state_dict : instance → weights → outcome instance.

(** Lines 43-44: a Python dict is turned into a [DictConfig]. *)
Definition normalise (c : cfg) : cfg :=
  match c with
  | PlainDict items => OmegaConf_create items
  | _ => c
  end.

(** Lines 45-60: the model type named by [_name] or [arch]; failing
    that, the only key of a one-entry configuration, which must be a
    schema name and under which the configuration is then taken. *)
Definition infer_model_type (c : cfg) (s : registries)
    : outcome (value * cfg) :=
  let model_type := py_or (getattr c "_name") (getattr c "arch") in
  if negb (truthy model_type) then
    n ← py_len c;
    if Nat.eqb n 1 then
      key ← first_key c;
      if in_dict key (MODEL_DATACLASS_REGISTRY s) then
        c' ← cfg_getitem c key;
        mret (VStr key, c')
      else
        Raise (Exception
          [Text "Could not infer model type from directory. Please add _name field to indicate model type. ";
           Text "Available models: ";
           StrKeys (dom (MODEL_DATACLASS_REGISTRY s));
           Text " Requested model type: ";
           Text key])
    else mret (model_type, c)
  else mret (model_type, c).

(** Lines 62-67: the class of the model type. *)
Definition lookup_model (model_type : value) (s : registries)
    : outcome (option pyclass) :=
  if value_in_dict model_type (ARCH_MODEL_REGISTRY s) then
    (* case 1: legacy models *)
    model ← getitem_value (ARCH_MODEL_REGISTRY s) model_type;
    mret (Some model)
  else if value_in_dict model_type (MODEL_DATACLASS_REGISTRY s) then
    (* case 2: config-driven models *)
    model ← getitem_value (MODEL_REGISTRY s) model_type;
    mret (Some model)
  else mret None.

(** Lines 69-83: defaults from the schema, or else the architecture
    function applied to the configuration.  The [with open_dict(cfg)]
    around the call only lifts the write protection of a [DictConfig] while
    the function runs; what the function leaves in [cfg] is its result. *)
Definition reconcile (model_type : value) (c : cfg) (from_checkpoint : bool)
    (s : registries) : outcome cfg :=
  if value_in_dict model_type (MODEL_DATACLASS_REGISTRY s) then
    dc ← getitem_value (MODEL_DATACLASS_REGISTRY s) model_type;
    defaults ← construct dc;
    if is_namespace c then populate_dataclass defaults c
    else merge_with_parent defaults c from_checkpoint
  else if value_in_dict model_type (ARCH_CONFIG_REGISTRY s) then
    fn ← getitem_value (ARCH_CONFIG_REGISTRY s) model_type;
    call_fn fn c
  else mret c.

(** Lines 43-91: the class and the configuration [build_model] hands to
    the factory of the class. *)
Definition resolve (c : cfg) (from_checkpoint : bool) (s : registries)
    : outcome (pyclass * cfg) :=
  let c := normalise c in
  '(model_type, c) ← infer_model_type c s;
  model ← lookup_model model_type s;
  c ← reconcile model_type c from_checkpoint s;
  match model with
  | Some model => mret (model, c)
  | None =>
      msg ← str_concat
        [Text "Could not infer model type from "; StrCfg c; Text ". ";
         Text "Available models: ";
         StrKeys (dom (MODEL_DATACLASS_REGISTRY s));
         Text " Requested model type: "] model_type;
      Raise (AssertionError msg)
  end.

(** [build_model(cfg, task, from_checkpoint, checkpoint_path)]. *)
Definition build_model (c : cfg) (t : option task) (from_checkpoint : bool)
    (checkpoint_path : option string) (s : registries) : outcome instance :=
  '(model, c) ← resolve c from_checkpoint s;
  model_instance ← cls_build_model model c t;
  match checkpoint_path with
  | Some path =>
      if from_checkpoint then
        state ← load_checkpoint_to_cpu path;
        load_state_dict model_instance (ckpt_model state)
      else mret model_instance
  | None => mret model_instance
  end.

(** The configuration [build_model_from_checkpoint] passes on. *)
Definition force_no_pretrained_weights (model_cfg : cfg) : outcome cfg :=
  if hasattr model_cfg "no_pretrained_weights"
     && negb (truthy (getattr model_cfg "no_pretrained_weights"))
  then setattr model_cfg "no_pretrained_weights" (VBool true)
  else mret model_cfg.

(** [build_model_from_checkpoint(checkpoint_path)]. *)
Definition build_model_from_checkpoint (checkpoint_path : string)
    (s : registries) : outcome instance :=
  state ← load_checkpoint_to_cpu checkpoint_path;
  model_cfg ← force_no_pretrained_weights (ckpt_cfg_model state);
  build_model model_cfg None true (Some checkpoint_path) s.

End Build.

(** ** The schema helpers, as the specification describes them *)

(** The fields a configuration object supplies. *)
Definition cfg_items (c : cfg) : option fields :=
  match c with
  | Namespace items | DataclassInstance items | PlainDict items
  | Node (VDict items) => Some items
  | Node _ => None
  end.

(** The defaults with every field the caller supplies replaced by the
    caller's value. *)
Definition override (supplied defaults : fields) : fields :=
  map (λ kd, (kd.1, default kd.2 (get_field kd.1 supplied))) defaults.

(** The first supplied field the defaults do not declare. *)
Definition undeclared (supplied defaults : fields) : option string :=
  fst <$> find (λ kv, negb (has_field kv.1 defaults)) supplied.

(** Modelled from the spec: [merge_with_parent] of
    [fairseq_signals.dataclass.utils], which the sources at hand import but
    do not contain.  Section 4.4, step 4: construct the schema defaults,
    then merge the caller-supplied fields onto the defaults; caller values
    win; fields absent in the defaults are rejected unless the
    loading-from-checkpoint flag is set. *)
Definition spec_merge_with_parent (defaults : fields) (c : cfg)
    (from_checkpoint : bool) : outcome cfg :=
  match cfg_items c with
  | None => Raise (TypeError [Text "cannot merge a scalar onto a schema"])
  | Some supplied =>
      match undeclared supplied defaults with
      | Some k =>
          if from_checkpoint then Ok (DictConfig (override supplied defaults))
          else Raise (ConfigKeyError k)
      | None => Ok (DictConfig (override supplied defaults))
      end
  end.

(** Modelled from the spec: [populate_dataclass] of
    [fairseq_signals.dataclass.utils], absent from the sources at hand as
    well.  The specification describes one merge for both kinds of
    configuration (section 4.4, step 4); for an attribute namespace the
    result is the populated schema instance. *)
Definition spec_populate_dataclass (defaults : fields) (c : cfg)
    : outcome cfg :=
  match cfg_items c with
  | None => Raise (TypeError [Text "cannot merge a scalar onto a schema"])
  | Some supplied =>
      match undeclared supplied defaults with
      | Some k => Raise (ConfigKeyError k)
      | None => Ok (DataclassInstance (override supplied defaults))
      end
  end.

(** ** A symbolic model of the remaining collaborators *)

(** A model instance, as far as the builder determines it: the class whose
    factory made it, the configuration and the task handed to the factory,
    and the weights restored onto it, if any. *)
Record sym_instance : Type := SymInstance {
  inst_class : pyclass;
  inst_cfg : cfg;
  inst_task : option string;
  inst_weights : option string
}.

Definition sym_build_model (model : pyclass) (c : cfg) (t : option string)
    : outcome sym_instance :=
  Ok (SymInstance model c t None).

Definition sym_load_state_dict (i : sym_instance) (w : string)
    : outcome sym_instance :=
  Ok (SymInstance (inst_class i) (inst_cfg i) (inst_task i) (Some w)).

(** A checkpoint store: the files that exist, by path. *)
Definition sym_load_checkpoint (files : gmap string (checkpoint string))
    (path : string) : outcome (checkpoint string) :=
  match files !! path with
  | Some state => Ok state
  | None => Raise (OtherError [Text "FileNotFoundError: "; Text path])
  end.

(** ** Invariants of the registries *)

(** The three architecture tables have the same keys, the class of an
    architecture is the class registered for its model name, and every
    schema belongs to a registered model. *)
Definition registry_invariant (s : registries) : Prop :=
  dom (ARCH_MODEL_REGISTRY s) = dom (ARCH_MODEL_NAME_REGISTRY s) ∧
  dom (ARCH_MODEL_REGISTRY s) = dom (ARCH_CONFIG_REGISTRY s) ∧
  (∀ a, a ∈ dom (ARCH_MODEL_REGISTRY s) →
     ∃ m cls, ARCH_MODEL_NAME_REGISTRY s !! a = Some m ∧
              ARCH_MODEL_REGISTRY s !! a = Some cls ∧
              MODEL_REGISTRY s !! m = Some cls) ∧
  dom (MODEL_DATACLASS_REGISTRY s) ⊆ dom (MODEL_REGISTRY s).


(** The model type a configuration asks for: named by a non-empty string
    under [_name] or [arch], or else the only key of a one-entry
    configuration. *)
Definition requests_model_type (c : cfg) (mt : string) : Prop :=
  let named := py_or (getattr (normalise c) "_name") (getattr (normalise c) "arch") in
  (named = VStr mt ∧ mt ≠ "") ∨
  (truthy named = false ∧ py_len (normalise c) = Ok 1 ∧
   first_key (normalise c) = Ok mt).

(** The diagnostic message of a failed build. *)
Definition diagnostic (e : exn) : option message :=
  match e with
  | AssertionError msg | Exception msg => Some msg
  | _ => None
  end.

(** The state a successful architecture registration produces. *)
Definition with_architecture (m a : string) (cls : pyclass) (fn : pyfn)
    (s : registries) : registries :=
  Registries (MODEL_REGISTRY s) (MODEL_DATACLASS_REGISTRY s)
    (<[a := cls]> (ARCH_MODEL_REGISTRY s))
    (<[a := m]> (ARCH_MODEL_NAME_REGISTRY s))
    (<[m := (default [] (ARCH_MODEL_INV_REGISTRY s !! m) ++ [a])%list]>
       (ARCH_MODEL_INV_REGISTRY s))
    (<[a := fn]> (ARCH_CONFIG_REGISTRY s))
    (CLASS_DATACLASS s) (CONFIG_STORE s).

(** The state after line 136, [MODEL_REGISTRY[name] = cls]. *)
Definition with_model (name : string) (cls : pyclass) (s : registries)
    : registries :=
  set_MODEL_REGISTRY <[name := cls]> s.

(** The state after lines 136-144: the class, its [__dataclass] attribute
    and the schema are recorded. *)
Definition with_schema_entry (name : string) (cls : pyclass) (dc : dataclass)
    (s : registries) : registries :=
  set_MODEL_DATACLASS_REGISTRY <[name := dc]>
    (set_CLASS_DATACLASS <[cls_name cls := Some dc]>
      (with_model name cls s)).

(** The state after lines 136-149: the class, its [__dataclass] attribute,
    the schema and the node of the configuration store are recorded. *)
Definition with_schema (name : string) (cls : pyclass) (dc : dataclass)
    (s : registries) : registries :=
  set_CONFIG_STORE <[name := set_field "_name" (VStr name) (dc_defaults dc)]>
    (with_schema_entry name cls dc s).

(** ** Example registrations *)

Definition LSTM : pyclass := PyClass "LSTM" true.
Definition ECGResNet : pyclass := PyClass "ECGResNet" true.
Definition NotAModel : pyclass := PyClass "NotAModel" false.

Definition ECGResNetConfig : dataclass :=
  PyDataclass "ECGResNetConfig" true
    [("_name", VNone); ("embed_dim", VInt 256);
     ("no_pretrained_weights", VBool false)] None None.
Definition NotASchema : dataclass :=
  PyDataclass "NotASchema" false [] None None.

(** A schema with a field that has no default: [dataclass()] raises. *)
Definition NeedsArgument : dataclass :=
  PyDataclass "NeedsArgument" true [("_name", VNone)]
    (Some (TypeError
       [Text "__init__() missing 1 required positional argument: 'depth'"]))
    None.

(** An architecture function in the usual style: fill in [hidden_dim]
    unless the configuration already has it. *)
Definition lstm_small : pyfn :=
  ArchFn "lstm_small" (λ c,
    if hasattr c "hidden_dim" then Ok c
    else setattr c "hidden_dim" (VInt 128)).

(** A legacy model with one architecture and a schema-driven model. *)
Definition zoo_calls : list call :=
  [RegisterModel "lstm" None LSTM;
   RegisterModelArchitecture "lstm" "lstm_small" lstm_small;
   RegisterModel "ecg_resnet" (Some ECGResNetConfig) ECGResNet].

(** A legacy architecture that took the name under which a schema-driven
    model is registered afterwards; the last call raises. *)
Definition clash_calls : list call :=
  [RegisterModel "lstm" None LSTM;
   RegisterModelArchitecture "lstm" "ecg_resnet" lstm_small;
   RegisterModel "ecg_resnet" (Some ECGResNetConfig) ECGResNet].

(** A checkpoint of the schema-driven model, saved with pretrained
    sub-weights enabled. *)
Definition example_checkpoints : gmap string (checkpoint string) :=
  {[ "ckpt.pt" :=
       Checkpoint
         (DictConfig [("_name", VStr "ecg_resnet"); ("embed_dim", VInt 512);
                      ("no_pretrained_weights", VBool false)])
         "weights" ]}.

(** ** Further invariants of the registries *)

(** The inverse index and the forward name table describe the same
    relation: [a] is listed under [m] exactly when [a] is recorded as an
    architecture of [m]. *)
Definition inverse_index_consistent (s : registries) : Prop :=
  ∀ m a,
    (∃ archs, ARCH_MODEL_INV_REGISTRY s !! m = Some archs ∧ a ∈ archs) ↔
    ARCH_MODEL_NAME_REGISTRY s !! a = Some m.

(** No architecture is listed twice. *)
Definition inverse_index_nodup (s : registries) : Prop :=
  ∀ m archs, ARCH_MODEL_INV_REGISTRY s !! m = Some archs → NoDup archs.

(** What the checks of the decorators guarantee about the stored objects. *)
Definition checked_entries (s : registries) : Prop :=
  (∀ n cls, MODEL_REGISTRY s !! n = Some cls → cls_extends_BaseModel cls = true) ∧
  (∀ n dc, MODEL_DATACLASS_REGISTRY s !! n = Some dc →
     dc_extends_Dataclass dc = true) ∧
  (∀ a cls, ARCH_MODEL_REGISTRY s !! a = Some cls →
     cls_extends_BaseModel cls = true) ∧
  (∀ a fn, ARCH_CONFIG_REGISTRY s !! a = Some fn → callable fn = true).

(** Every entry of [s] is an entry of [s'], and the inverse index of [s']
    continues each list of [s]. *)
Definition tables_extend (s s' : registries) : Prop :=
  MODEL_REGISTRY s ⊆ MODEL_REGISTRY s' ∧
  MODEL_DATACLASS_REGISTRY s ⊆ MODEL_DATACLASS_REGISTRY s' ∧
  ARCH_MODEL_REGISTRY s ⊆ ARCH_MODEL_REGISTRY s' ∧
  ARCH_MODEL_NAME_REGISTRY s ⊆ ARCH_MODEL_NAME_REGISTRY s' ∧
  ARCH_CONFIG_REGISTRY s ⊆ ARCH_CONFIG_REGISTRY s' ∧
  (∀ m archs, ARCH_MODEL_INV_REGISTRY s !! m = Some archs →
     ∃ more, ARCH_MODEL_INV_REGISTRY s' !! m = Some (archs ++ more)%list).

(** The node stored in the configuration store for a schema that could
    be constructed and stored is the constructed schema with its identity
    field set to the model name; the store holds no other node. *)
Definition schema_nodes_stored (s : registries) : Prop :=
  (∀ n dc, MODEL_DATACLASS_REGISTRY s !! n = Some dc →
     dc_init_error dc = None → dc_store_error dc = None →
     CONFIG_STORE s !! n = Some (set_field "_name" (VStr n) (dc_defaults dc))) ∧
  (∀ n node, CONFIG_STORE s !! n = Some node →
     ∃ dc, MODEL_DATACLASS_REGISTRY s !! n = Some dc ∧
           dc_init_error dc = None ∧ dc_store_error dc = None ∧
           node = set_field "_name" (VStr n) (dc_defaults dc)).

(** Running further calls from a given state. *)
Definition run_from (s : registries) (cs : list call) : registries :=
  foldl (λ s c, exec_call c s) s cs.

(** The effect of one registration call on the state, with the checks that
    were passed to get there: nothing (a call that raised before its first
    write), a model without schema, a model whose schema was refused, a
    model whose schema could not be constructed or stored, a model with
    schema whose automatic architecture was refused, a model with schema
    and its automatic architecture, an architecture. *)
Inductive registry_step (s : registries) : registries → Prop :=
| step_unchanged : registry_step s s
| step_model_plain (name : string) (cls : pyclass) :
    MODEL_REGISTRY s !! name = None →
    cls_extends_BaseModel cls = true →
    registry_step s
      (set_CLASS_DATACLASS <[cls_name cls := None]> (with_model name cls s))
| step_model_only (name : string) (cls : pyclass) :
    MODEL_REGISTRY s !! name = None →
    cls_extends_BaseModel cls = true →
    registry_step s (with_model name cls s)
| step_schema_unstored (name : string) (cls : pyclass) (dc : dataclass) :
    MODEL_REGISTRY s !! name = None →
    cls_extends_BaseModel cls = true →
    dc_extends_Dataclass dc = true →
    dc_init_error dc ≠ None ∨ dc_store_error dc ≠ None →
    registry_step s (with_schema_entry name cls dc s)
| step_schema_only (name : string) (cls : pyclass) (dc : dataclass) :
    MODEL_REGISTRY s !! name = None →
    cls_extends_BaseModel cls = true →
    dc_extends_Dataclass dc = true →
    registry_step s (with_schema name cls dc s)
| step_schema (name : string) (cls : pyclass) (dc : dataclass) :
    MODEL_REGISTRY s !! name = None →
    cls_extends_BaseModel cls = true →
    dc_extends_Dataclass dc = true →
    ARCH_MODEL_REGISTRY s !! name = None →
    registry_step s
      (with_architecture name name cls Noop (with_schema name cls dc s))
| step_architecture (m a : string) (cls : pyclass) (fn : pyfn) :
    MODEL_REGISTRY s !! m = Some cls →
    ARCH_MODEL_REGISTRY s !! a = None →
    callable fn = true →
    registry_step s (with_architecture m a cls fn s).

(** ** Discovering the model modules *)

(** [s.startswith(prefix)], [s.endswith(suffix)], [s.find(sub)] and the
    slice [s[:stop]]. *)
Definition py_startswith (s prefix : string) : bool := String.prefix prefix s.

Definition py_endswith (s suffix : string) : bool :=
  Nat.leb (String.length suffix) (String.length s) &&
  String.eqb
    (String.substring (String.length s - String.length suffix)
       (String.length suffix) s)
    suffix.

Definition py_find (s sub : string) : Z :=
  match String.index 0 sub s with
  | Some i => Z.of_nat i
  | None => (-1)%Z
  end.

Definition py_slice_to (s : string) (stop : Z) : string :=
  let n := Z.of_nat (String.length s) in
  let stop := if (stop <? 0)%Z then Z.max 0 (n + stop) else Z.min stop n in
  String.substring 0 (Z.to_nat stop) s.

(** Lines 208-212: the entries of the models directory that are loaded. *)
Definition eligible (file : string) (isdir : bool) : bool :=
  negb (py_startswith file "_") && negb (py_startswith file ".") &&
  (py_endswith file ".py" || isdir).

(** Line 213: the module name of an entry. *)
Definition module_name (file : string) : string :=
  if py_endswith file ".py" then py_slice_to file (py_find file ".py")
  else file.

(** The argument parser made for a model (lines 218-226): its [--arch]
    choices are the list object the inverse index holds for the model,
    named here by its key; its further arguments are those the model class
    adds. *)
Record parser : Type := Parser {
  parser_arch_choices_of : string;
  parser_args_of : pyclass
}.

Section Discovery.

(** [importlib.import_module], for what loading a model-definition module
    does to the registries, and the [add_args] of a model class. *)
Variable import_module : string → M unit.
Variable add_args : pyclass → outcome unit.

(** [import_models(models_dir, namespace)], over the listing of the
    directory: each entry with whether it is a directory.  The state is
    the registries and the parsers written to the module globals. *)
Fixpoint import_models (listing : list (string * bool)) (namespace : string)
    (globals : gmap string parser) (s : registries)
    : outcome unit * (registries * gmap string parser) :=
  match listing with
  | [] => (Ok tt, (s, globals))
  | (file, isdir) :: listing' =>
      if eligible file isdir then
        let model_name := module_name file in
        match import_module (namespace ++ "." ++ model_name) s with
        | (Raise e, s1) => (Raise e, (s1, globals))
        | (Ok _, s1) =>
            if in_dict model_name (MODEL_REGISTRY s1) then
              match getitem (ARCH_MODEL_INV_REGISTRY s1) model_name with
              | Raise e => (Raise e, (s1, globals))
              | Ok _ =>
                  match getitem (MODEL_REGISTRY s1) model_name with
                  | Raise e => (Raise e, (s1, globals))
                  | Ok cls =>
                      match add_args cls with
                      | Raise e => (Raise e, (s1, globals))
                      | Ok _ =>
                          import_models listing' namespace
                            (<[model_name ++ "_parser" :=
                                 Parser model_name cls]> globals) s1
                      end
                  end
              end
            else import_models listing' namespace globals s1
        end
      else import_models listing' namespace globals s
  end.

End Discovery.

(** A model-definition module, as the registration calls its top level
    makes: loading runs them in order and stops at the first that raises. *)
Fixpoint run_module (calls : list call) : M unit :=
  match calls with
  | [] => ret tt
  | RegisterModel name dataclass cls :: calls' =>
      register_model name dataclass cls ;;; run_module calls'
  | RegisterModelArchitecture m a fn :: calls' =>
      register_model_architecture m a fn ;;; run_module calls'
  end.

(** Loading by name from a table of modules. *)
Definition load_module (modules : gmap string (list call)) (name : string)
    : M unit :=
  match modules !! name with
  | Some calls => run_module calls
  | None => raise (OtherError [Text "ModuleNotFoundError: "; Text name])
  end.

(** A package with one legacy model that registers no architecture. *)
Definition example_modules : gmap string (list call) :=
  {[ "fairseq_signals.models.lstm" := [RegisterModel "lstm" None LSTM] ]}.

(** * The CLOCS manifest converter

    [fairseq_signals/models/clocs/convert_to_clocs_manifest.py], as a
    function from the lines of the source manifest to the lines printed to
    the converted one.  A string is the sequence of its characters.  The
    built-ins [str.strip] and [int] are parameters of the development;
    splitting, searching, slicing, sorting and the printing of integers are
    written out. *)

Definition tab_char : Ascii.ascii := Ascii.ascii_of_nat 9.
Definition tab : string := String tab_char "".
Definition underscore : Ascii.ascii := Ascii.ascii_of_nat 95.

(** [s.split(sep)] for a one-character separator. *)
Fixpoint py_split (sep : Ascii.ascii) (s : string) : list string :=
  match s with
  | EmptyString => [EmptyString]
  | String a s' =>
      if Ascii.eqb a sep then EmptyString :: py_split sep s'
      else match py_split sep s' with
           | [] => [String a EmptyString]
           | x :: xs => String a x :: xs
           end
  end.

(** [s.rindex(c)] for a one-character [c]: the last position of [c], or
    nothing where Python raises [ValueError]. *)
Fixpoint py_rindex (c : Ascii.ascii) (s : string) : option nat :=
  match s with
  | EmptyString => None
  | String a s' =>
      match py_rindex c s' with
      | Some i => Some (S i)
      | None => if Ascii.eqb a c then Some 0 else None
      end
  end.

(** The slice [s[start:stop]], negative bounds counting from the end. *)
Definition py_slice (s : string) (start stop : Z) : string :=
  let n := Z.of_nat (String.length s) in
  let clamp i := if (i <? 0)%Z then Z.max 0 (n + i) else Z.min i n in
  String.substring (Z.to_nat (clamp start))
    (Z.to_nat (clamp stop - clamp start)) s.

(** [str(n)] for an integer and [sep.join(l)]. *)
Definition str_of_int (n : Z) : string :=
  DecimalString.NilZero.string_of_int (Z.to_int n).

Definition py_join (sep : string) (l : list string) : string :=
  String.concat sep l.

(** What one line of the manifest contributes: the name of the record,
    the folder it is grouped under, its size field and its segment
    number. *)
Record manifest_record : Type := ManifestRecord {
  rec_name : string;
  rec_folder : string;
  rec_size : string;
  rec_segment : Z
}.

(** The three variables of [main] the loop updates: the list [fnames], the
    dictionary [sizes] and the dictionary [segments], whose keys stay in
    insertion order. *)
Record manifest_state : Type := ManifestState {
  fnames : list string;
  sizes : gmap string string;
  segments : list (string * list Z)
}.

(** Lines 50-53: append to the list of a folder already seen, or add the
    folder at the end. *)
Fixpoint add_segment (folder : string) (segment : Z)
    (d : list (string * list Z)) : list (string * list Z) :=
  match d with
  | [] => [(folder, [segment])]
  | (k, l) :: d' =>
      if String.eqb k folder then (k, (l ++ [segment])%list) :: d'
      else (k, l) :: add_segment folder segment d'
  end.

Section Converter.

Variable strip : string → string.
Variable int : string → outcome Z.

(** Lines 42-49: the fields of one line. *)
Definition parse_line (line : string) : outcome manifest_record :=
  match py_split tab_char (strip line) with
  | [name; size] =>
      match py_rindex underscore name with
      | None => Raise (ValueError [Text "substring not found"])
      | Some i =>
          let folder := py_slice name 0 (Z.of_nat i) in
          segment ← int (py_slice name (Z.of_nat i + 1) (-4));
          mret (ManifestRecord name folder size segment)
      end
  | _ => Raise (AssertionError [Text line])
  end.

(** Lines 44-53: the updates one record causes. *)
Definition record_line (st : manifest_state) (r : manifest_record)
    : manifest_state :=
  ManifestState (fnames st ++ [rec_name r])%list
    (<[rec_folder r := rec_size r]> (sizes st))
    (add_segment (rec_folder r) (rec_segment r) (segments st)).

(** Lines 41-53: the loop over the lines after the first. *)
Fixpoint read_lines (lines : list string) (st : manifest_state)
    : outcome manifest_state :=
  match lines with
  | [] => mret st
  | line :: lines' =>
      r ← parse_line line;
      read_lines lines' (record_line st r)
  end.

(** Lines 62-67: one printed line for each folder with more than one
    segment. *)
Fixpoint write_groups (sizes : gmap string string)
    (segments : list (string * list Z)) : outcome (list string) :=
  match segments with
  | [] => mret []
  | (fname, segment) :: segments' =>
      if Nat.leb (length segment) 1 then write_groups sizes segments'
      else
        size ← getitem sizes fname;
        rest ← write_groups sizes segments';
        mret ((fname ++ tab ++ size ++ tab ++
               py_join "," (str_of_int <$> merge_sort Z.le segment))%string
              :: rest)
  end.

(** [main(args)]: from the lines of [args.root] and [args.ext] to the
    lines printed to the destination file.  Nothing is written when a line
    cannot be read: the destination is opened after the loop. *)
Definition convert (content : list string) (ext : string)
    : outcome (list string) :=
  let dir_path := strip (hd EmptyString content) in
  st ← read_lines (tl content) (ManifestState [] ∅ []);
  groups ← write_groups (sizes st) (segments st);
  mret (dir_path :: ext :: groups).

End Converter.

(** ** The grouping, stated on the records *)

(** The folders in the order of their first record. *)
Definition folders_in_order (recs : list manifest_record) : list string :=
  foldl (λ seen r, if decide (rec_folder r ∈ seen) then seen
                   else (seen ++ [rec_folder r])%list) [] recs.

(** The segments of the records of a folder, in the order of the records,
    and the size field of its last record. *)
Definition folder_segments (folder : string) (recs : list manifest_record)
    : list Z :=
  rec_segment <$> filter (λ r, rec_folder r = folder) recs.

Definition folder_size (folder : string) (recs : list manifest_record)
    : option string :=
  last (rec_size <$> filter (λ r, rec_folder r = folder) recs).

(** A group of the converted manifest: folder, size and sorted segments. *)
Definition groups_of (recs : list manifest_record)
    : list (string * string * list Z) :=
  omap (λ folder,
          let segs := folder_segments folder recs in
          if Nat.leb (length segs) 1 then None
          else Some (folder, default EmptyString (folder_size folder recs),
                     merge_sort Z.le segs))
       (folders_in_order recs).

Definition format_group (g : string * string * list Z) : string :=
  (g.1.1 ++ tab ++ g.1.2 ++ tab ++ py_join "," (str_of_int <$> g.2))%string.

(** The dictionary [segments] the loop has built after the records. *)
Definition segments_by_folder (recs : list manifest_record)
    : list (string * list Z) :=
  (λ folder, (folder, folder_segments folder recs)) <$> folders_in_order recs.

(** Whether a character occurs in a string. *)
Fixpoint contains_char (c : Ascii.ascii) (s : string) : bool :=
  match s with
  | EmptyString => false
  | String a s' => Ascii.eqb a c || contains_char c s'
  end.

(** ** The built-ins on eight-bit characters *)

(** [c.isspace()] for a character below 256. *)
Definition is_space (c : Ascii.ascii) : bool :=
  let n := Ascii.nat_of_ascii c in
  (Nat.leb 9 n && Nat.leb n 13) || (Nat.leb 28 n && Nat.leb n 32)
  || Nat.eqb n 133 || Nat.eqb n 160.

(** The characters [int] skips around a literal: the C whitespace of an
    ASCII string and, of the characters from 128 on, those that
    [isspace] accepts.  The separators 28 to 31 are not among them:
    [int("\x1c12")] raises [ValueError]. *)
Definition is_int_space (c : Ascii.ascii) : bool :=
  let n := Ascii.nat_of_ascii c in
  (Nat.leb 9 n && Nat.leb n 13) || Nat.eqb n 32
  || Nat.eqb n 133 || Nat.eqb n 160.

Fixpoint lstrip (space : Ascii.ascii → bool) (s : string) : string :=
  match s with
  | String a s' => if space a then lstrip space s' else s
  | EmptyString => EmptyString
  end.

Fixpoint rstrip (space : Ascii.ascii → bool) (s : string) : string :=
  match s with
  | EmptyString => EmptyString
  | String a s' =>
      match rstrip space s' with
      | EmptyString => if space a then EmptyString else String a EmptyString
      | r => String a r
      end
  end.

(** [s.strip()]. *)
Definition char_strip (s : string) : string :=
  rstrip is_space (lstrip is_space s).

(** The decimal value of digits that may be separated by single
    underscores; [prev] tells whether the previous character was a digit. *)
Fixpoint digits_value (acc : Z) (prev : bool) (s : string) : option Z :=
  match s with
  | EmptyString => if prev then Some acc else None
  | String a s' =>
      let n := Ascii.nat_of_ascii a in
      if Nat.leb 48 n && Nat.leb n 57 then
        digits_value (10 * acc + Z.of_nat (n - 48))%Z true s'
      else if Nat.eqb n 95 && prev then digits_value acc false s'
      else None
  end.

(** [int(s)] in base ten. *)
Definition char_int (s : string) : outcome Z :=
  let invalid := Raise (ValueError
    [Text "invalid literal for int() with base 10: "; Text s]) in
  match rstrip is_int_space (lstrip is_int_space s) with
  | String a s' =>
      if Ascii.eqb a (Ascii.ascii_of_nat 45) then
        match digits_value 0 false s' with
        | Some n => Ok (- n)%Z
        | None => invalid
        end
      else if Ascii.eqb a (Ascii.ascii_of_nat 43) then
        match digits_value 0 false s' with
        | Some n => Ok n
        | None => invalid
        end
      else
        match digits_value 0 false (String a s') with
        | Some n => Ok n
        | None => invalid
        end
  | EmptyString => invalid
  end.

(** A manifest with two folders, one of them with a single record. *)
Definition newline : string := String (Ascii.ascii_of_nat 10) "".

Definition example_manifest : list string :=
  [("/data/ecg" ++ newline)%string;
   ("a_2.mat" ++ tab ++ "100" ++ newline)%string;
   ("b_1.mat" ++ tab ++ "250" ++ newline)%string;
   ("a_1.mat" ++ tab ++ "100" ++ newline)%string;
   ("a_10.mat" ++ tab ++ "120" ++ newline)%string].

(** * Properties *)

(** ** Dictionary membership *)

Lemma in_dict_true {V} (k : string) (d : gmap string V) :
  in_dict k d = true ↔ is_Some (d !! k).
Proof. unfold in_dict. apply bool_decide_eq_true. Qed.

Lemma in_dict_false {V} (k : string) (d : gmap string V) :
  in_dict k d = false ↔ d !! k = None.
Proof.
  unfold in_dict. rewrite bool_decide_eq_false.
  rewrite eq_None_not_Some. done.
Qed.

Lemma in_dict_Some {V} (k : string) (d : gmap string V) (v : V) :
  d !! k = Some v → in_dict k d = true.
Proof. intros H. apply in_dict_true. eauto. Qed.

Lemma in_dict_dom {V} (k : string) (d : gmap string V) :
  in_dict k d = true ↔ k ∈ dom d.
Proof. rewrite in_dict_true. symmetry. apply elem_of_dom. Qed.

Lemma getitem_Some {V} (k : string) (d : gmap string V) (v : V) :
  d !! k = Some v → getitem d k = Ok v.
Proof. intros H. unfold getitem. by rewrite H. Qed.

(** ** What a registration call does, case by case *)

Ltac run_registration :=
  unfold register_model, register_model_architecture, bind, get, raise,
    modify, ret, lift; simpl.

Lemma register_model_architecture_unknown (s : registries)
    (m a : string) (fn : pyfn) :
  MODEL_REGISTRY s !! m = None →
  register_model_architecture m a fn s =
    (Raise (ValueError
       [Text "Cannot register model architecture for unknown model type (";
        Text m; Text ")"]), s).
Proof.
  intros Hm. run_registration.
  apply in_dict_false in Hm. by rewrite Hm.
Qed.

Lemma register_model_architecture_duplicate (s : registries)
    (m a : string) (fn : pyfn) :
  is_Some (MODEL_REGISTRY s !! m) →
  is_Some (ARCH_MODEL_REGISTRY s !! a) →
  register_model_architecture m a fn s =
    (Raise (ValueError
       [Text "Cannot register duplicate model architecture (";
        Text a; Text ")"]), s).
Proof.
  intros Hm Ha. run_registration.
  apply in_dict_true in Hm, Ha. by rewrite Hm, Ha.
Qed.

Lemma register_model_architecture_not_callable (s : registries)
    (m a : string) (fn : pyfn) :
  is_Some (MODEL_REGISTRY s !! m) →
  ARCH_MODEL_REGISTRY s !! a = None →
  callable fn = false →
  register_model_architecture m a fn s =
    (Raise (ValueError
       [Text "Model architecture must be callable ("; Text a; Text ")"]), s).
Proof.
  intros Hm Ha Hfn. run_registration.
  apply in_dict_true in Hm. apply in_dict_false in Ha.
  by rewrite Hm, Ha, Hfn.
Qed.

Lemma register_model_architecture_ok (s : registries)
    (m a : string) (fn : pyfn) (cls : pyclass) :
  MODEL_REGISTRY s !! m = Some cls →
  ARCH_MODEL_REGISTRY s !! a = None →
  callable fn = true →
  register_model_architecture m a fn s = (Ok fn, with_architecture m a cls fn s).
Proof.
  intros Hm Ha Hfn. run_registration.
  rewrite (in_dict_Some _ _ _ Hm). apply in_dict_false in Ha.
  rewrite Ha, Hfn. simpl. unfold getitem. by rewrite Hm.
Qed.

(** Every outcome of an architecture registration. *)
Lemma register_model_architecture_cases (s : registries)
    (m a : string) (fn : pyfn) :
  (∃ e, register_model_architecture m a fn s = (Raise e, s)) ∨
  (∃ cls, MODEL_REGISTRY s !! m = Some cls ∧
          ARCH_MODEL_REGISTRY s !! a = None ∧
          callable fn = true ∧
          register_model_architecture m a fn s =
            (Ok fn, with_architecture m a cls fn s)).
Proof.
  destruct (MODEL_REGISTRY s !! m) as [cls|] eqn:Hm.
  - destruct (ARCH_MODEL_REGISTRY s !! a) as [c'|] eqn:Ha.
    + left. eexists. apply register_model_architecture_duplicate; eauto.
    + destruct (callable fn) eqn:Hfn.
      * right. exists cls. split_and!; try done.
        by apply register_model_architecture_ok.
      * left. eexists.
        apply register_model_architecture_not_callable; eauto.
  - left. eexists. by apply register_model_architecture_unknown.
Qed.

(** ** What a model registration does, case by case *)

Lemma register_model_duplicate (s : registries) (name : string)
    (dataclass : option dataclass) (cls : pyclass) :
  is_Some (MODEL_REGISTRY s !! name) →
  register_model name dataclass cls s =
    (Raise (ValueError
       [Text "Cannot register duplicate model ("; Text name; Text ")"]), s).
Proof.
  intros Hn. run_registration. apply in_dict_true in Hn. by rewrite Hn.
Qed.

Lemma register_model_not_a_model (s : registries) (name : string)
    (dataclass : option dataclass) (cls : pyclass) :
  MODEL_REGISTRY s !! name = None →
  cls_extends_BaseModel cls = false →
  register_model name dataclass cls s =
    (Raise (ValueError
       [Text "Model ("; Text name; Text ": "; Text (cls_name cls);
        Text ") must extend BaseModel"]), s).
Proof.
  intros Hn Hc. run_registration. apply in_dict_false in Hn.
  by rewrite Hn, Hc.
Qed.

Lemma register_model_plain (s : registries) (name : string) (cls : pyclass) :
  MODEL_REGISTRY s !! name = None →
  cls_extends_BaseModel cls = true →
  register_model name None cls s =
    (Ok cls, set_CLASS_DATACLASS <[cls_name cls := None]> (with_model name cls s)).
Proof.
  intros Hn Hc. run_registration. apply in_dict_false in Hn.
  by rewrite Hn, Hc.
Qed.

Lemma register_model_not_a_schema (s : registries) (name : string)
    (dc : dataclass) (cls : pyclass) :
  MODEL_REGISTRY s !! name = None →
  cls_extends_BaseModel cls = true →
  dc_extends_Dataclass dc = false →
  register_model name (Some dc) cls s =
    (Raise (ValueError
       [Text "Dataclass "; StrClass (dc_name dc);
        Text " must extend Dataclass"]), with_model name cls s).
Proof.
  intros Hn Hc Hd. run_registration. apply in_dict_false in Hn.
  by rewrite Hn, Hc, Hd.
Qed.

Lemma register_model_not_constructed (s : registries) (name : string)
    (dc : dataclass) (cls : pyclass) (e : exn) :
  MODEL_REGISTRY s !! name = None →
  cls_extends_BaseModel cls = true →
  dc_extends_Dataclass dc = true →
  dc_init_error dc = Some e →
  register_model name (Some dc) cls s =
    (Raise e, with_schema_entry name cls dc s).
Proof.
  intros Hn Hc Hd He. run_registration. apply in_dict_false in Hn.
  rewrite Hn, Hc, Hd. simpl. unfold construct. by rewrite He.
Qed.

Lemma register_model_not_stored (s : registries) (name : string)
    (dc : dataclass) (cls : pyclass) (e : exn) :
  MODEL_REGISTRY s !! name = None →
  cls_extends_BaseModel cls = true →
  dc_extends_Dataclass dc = true →
  dc_init_error dc = None →
  dc_store_error dc = Some e →
  register_model name (Some dc) cls s =
    (Raise e, with_schema_entry name cls dc s).
Proof.
  intros Hn Hc Hd Hi He. run_registration. apply in_dict_false in Hn.
  rewrite Hn, Hc, Hd. simpl. unfold construct, named_node.
  by rewrite Hi, He.
Qed.

Lemma register_model_schema (s : registries) (name : string)
    (dc : dataclass) (cls : pyclass) :
  MODEL_REGISTRY s !! name = None →
  cls_extends_BaseModel cls = true →
  dc_extends_Dataclass dc = true →
  dc_init_error dc = None →
  dc_store_error dc = None →
  register_model name (Some dc) cls s =
    match register_model_architecture name name Noop (with_schema name cls dc s) with
    | (Ok _, s') => (Ok cls, s')
    | (Raise e, s') => (Raise e, s')
    end.
Proof.
  intros Hn Hc Hd Hi Hs.
  unfold register_model, bind at 1, get.
  apply in_dict_false in Hn. rewrite Hn, Hc, Hd. simpl.
  unfold bind, modify, ret, lift, construct, named_node.
  rewrite Hi, Hs. simpl.
  fold (with_model name cls s). fold (with_schema_entry name cls dc s).
  fold (with_schema name cls dc s).
  by destruct (register_model_architecture _ _ _ _) as [[?|?] ?].
Qed.

Lemma with_schema_model (name : string) (cls : pyclass) (dc : dataclass)
    (s : registries) :
  MODEL_REGISTRY (with_schema name cls dc s) !! name = Some cls.
Proof. simpl. apply lookup_insert_eq. Qed.

Lemma register_model_schema_ok (s : registries) (name : string)
    (dc : dataclass) (cls : pyclass) :
  MODEL_REGISTRY s !! name = None →
  cls_extends_BaseModel cls = true →
  dc_extends_Dataclass dc = true →
  dc_init_error dc = None →
  dc_store_error dc = None →
  ARCH_MODEL_REGISTRY s !! name = None →
  register_model name (Some dc) cls s =
    (Ok cls, with_architecture name name cls Noop (with_schema name cls dc s)).
Proof.
  intros Hn Hc Hd Hi Hs Ha. rewrite register_model_schema by done.
  rewrite (register_model_architecture_ok _ _ _ _ cls); try done.
  apply with_schema_model.
Qed.

Lemma register_model_schema_clash (s : registries) (name : string)
    (dc : dataclass) (cls : pyclass) :
  MODEL_REGISTRY s !! name = None →
  cls_extends_BaseModel cls = true →
  dc_extends_Dataclass dc = true →
  dc_init_error dc = None →
  dc_store_error dc = None →
  is_Some (ARCH_MODEL_REGISTRY s !! name) →
  register_model name (Some dc) cls s =
    (Raise (ValueError
       [Text "Cannot register duplicate model architecture (";
        Text name; Text ")"]), with_schema name cls dc s).
Proof.
  intros Hn Hc Hd Hi Hs Ha. rewrite register_model_schema by done.
  rewrite register_model_architecture_duplicate; try done.
  rewrite with_schema_model. eauto.
Qed.

(** ** Preservation of the invariants *)

Lemma registry_invariant_empty : registry_invariant empty_registries.
Proof.
  unfold registry_invariant. simpl. rewrite !dom_empty_L.
  split_and!; set_solver.
Qed.

Lemma registry_invariant_with_model (name : string) (cls : pyclass)
    (s : registries) :
  MODEL_REGISTRY s !! name = None →
  registry_invariant s → registry_invariant (with_model name cls s).
Proof.
  intros Hn (H1 & H2 & H3 & H4). unfold registry_invariant. simpl.
  split_and!; try done.
  - intros a Ha. destruct (H3 a Ha) as (m & c & Hm & Hc & Hr).
    exists m, c. split_and!; try done.
    rewrite lookup_insert_ne; [done | congruence].
  - rewrite dom_insert_L. set_solver.
Qed.

Lemma registry_invariant_class_attr
    (f : gmap string (option dataclass) → gmap string (option dataclass))
    (s : registries) :
  registry_invariant s → registry_invariant (set_CLASS_DATACLASS f s).
Proof. done. Qed.

Lemma registry_invariant_with_schema_entry (name : string) (cls : pyclass)
    (dc : dataclass) (s : registries) :
  MODEL_REGISTRY s !! name = None →
  registry_invariant s → registry_invariant (with_schema_entry name cls dc s).
Proof.
  intros Hn Hinv.
  destruct (registry_invariant_with_model name cls s Hn Hinv)
    as (H1 & H2 & H3 & H4).
  unfold registry_invariant. simpl in *.
  split_and!; try done.
  rewrite !dom_insert_L in *. set_solver.
Qed.

Lemma registry_invariant_with_schema (name : string) (cls : pyclass)
    (dc : dataclass) (s : registries) :
  MODEL_REGISTRY s !! name = None →
  registry_invariant s → registry_invariant (with_schema name cls dc s).
Proof.
  intros Hn Hinv.
  destruct (registry_invariant_with_model name cls s Hn Hinv)
    as (H1 & H2 & H3 & H4).
  unfold registry_invariant. simpl in *.
  split_and!; try done.
  rewrite !dom_insert_L in *. set_solver.
Qed.

Lemma registry_invariant_with_architecture (m a : string) (cls : pyclass)
    (fn : pyfn) (s : registries) :
  MODEL_REGISTRY s !! m = Some cls →
  registry_invariant s → registry_invariant (with_architecture m a cls fn s).
Proof.
  intros Hm (H1 & H2 & H3 & H4). unfold registry_invariant. simpl.
  rewrite !dom_insert_L. split_and!; try done.
  - by rewrite H1.
  - by rewrite H2.
  - intros a' Ha'. destruct (decide (a' = a)) as [->|Hne].
    + exists m, cls. by rewrite !lookup_insert_eq.
    + rewrite !lookup_insert_ne by done. apply H3. set_solver.
Qed.





(** The state an architecture registration leaves, whatever its outcome. *)
Lemma exec_architecture_cases (m a : string) (fn : pyfn) (s : registries) :
  exec_call (RegisterModelArchitecture m a fn) s = s ∨
  ∃ cls, MODEL_REGISTRY s !! m = Some cls ∧
         ARCH_MODEL_REGISTRY s !! a = None ∧
         exec_call (RegisterModelArchitecture m a fn) s =
           with_architecture m a cls fn s.
Proof.
  simpl.
  destruct (register_model_architecture_cases s m a fn)
    as [[e He] | (cls & Hm & Ha & _ & Hok)].
  - left. by rewrite He.
  - right. exists cls. by rewrite Hok.
Qed.

(** The state a model registration leaves, whatever its outcome. *)
Lemma exec_model_cases (name : string) (dataclass : option dataclass)
    (cls : pyclass) (s : registries) :
  exec_call (RegisterModel name dataclass cls) s = s ∨
  MODEL_REGISTRY s !! name = None ∧
  (exec_call (RegisterModel name dataclass cls) s =
     set_CLASS_DATACLASS <[cls_name cls := None]> (with_model name cls s) ∨
   exec_call (RegisterModel name dataclass cls) s = with_model name cls s ∨
   (∃ dc, exec_call (RegisterModel name dataclass cls) s =
            with_schema_entry name cls dc s) ∨
   (∃ dc, exec_call (RegisterModel name dataclass cls) s =
            with_schema name cls dc s) ∨
   (∃ dc, exec_call (RegisterModel name dataclass cls) s =
            with_architecture name name cls Noop (with_schema name cls dc s))).
Proof.
  simpl.
  destruct (MODEL_REGISTRY s !! name) as [c|] eqn:Hn.
  { left. rewrite register_model_duplicate; eauto. }
  destruct (cls_extends_BaseModel cls) eqn:Hc.
  2:{ left. by rewrite register_model_not_a_model. }
  right. split; [done|].
  destruct dataclass as [dc|].
  2:{ left. by rewrite register_model_plain. }
  destruct (dc_extends_Dataclass dc) eqn:Hd.
  2:{ right; left. by rewrite register_model_not_a_schema. }
  destruct (dc_init_error dc) as [e|] eqn:Hi.
  { right; right; left. exists dc.
    by rewrite (register_model_not_constructed _ _ _ _ e). }
  destruct (dc_store_error dc) as [e|] eqn:Hs.
  { right; right; left. exists dc.
    by rewrite (register_model_not_stored _ _ _ _ e). }
  destruct (ARCH_MODEL_REGISTRY s !! name) as [c|] eqn:Ha.
  - right; right; right; left. exists dc.
    rewrite register_model_schema_clash; eauto.
  - right; right; right; right. exists dc.
    by rewrite register_model_schema_ok.
Qed.

Lemma registry_invariant_exec_call (c : call) (s : registries) :
  registry_invariant s → registry_invariant (exec_call c s).
Proof.
  intros Hinv. destruct c as [name dataclass cls | m a fn].
  - destruct (exec_model_cases name dataclass cls s)
      as [-> | (Hn & [-> | [-> | [[dc ->] | [[dc ->] | [dc ->]]]]])]; try done.
    + by apply registry_invariant_class_attr, registry_invariant_with_model.
    + by apply registry_invariant_with_model.
    + by apply registry_invariant_with_schema_entry.
    + by apply registry_invariant_with_schema.
    + apply registry_invariant_with_architecture.
      * apply with_schema_model.
      * by apply registry_invariant_with_schema.
  - destruct (exec_architecture_cases m a fn s)
      as [-> | (cls & Hm & Ha & ->)]; try done.
    by apply registry_invariant_with_architecture.
Qed.


(** Induction over the calls issued so far. *)
Lemma run_calls_ind (P : registries → Prop) :
  P empty_registries →
  (∀ c s, P s → P (exec_call c s)) →
  ∀ cs, P (run_calls cs).
Proof.
  intros H0 Hstep cs. unfold run_calls.
  induction cs as [|c cs IH] using rev_ind; [done|].
  rewrite foldl_app. simpl. by apply Hstep.
Qed.

Lemma registry_invariant_reachable (cs : list call) :
  registry_invariant (run_calls cs).
Proof.
  induction cs as [|c cs IH] using rev_ind.
  - apply registry_invariant_empty.
  - unfold run_calls in *. rewrite foldl_app. simpl.
    by apply registry_invariant_exec_call.
Qed.


(** ** Registering a model *)

(** C2: when a model is already registered under [n], a further
    [register_model] call under [n] raises the duplicate-model
    [ValueError], whatever class and schema it is given, and leaves the
    model registry, and with it every other table, exactly as it was. *)
Theorem register_model_twice_fails (s : registries) (n : string)
    (dataclass : option dataclass) (cls : pyclass) :
  is_Some (MODEL_REGISTRY s !! n) →
  register_model n dataclass cls s =
    (Raise (ValueError
       [Text "Cannot register duplicate model ("; Text n; Text ")"]), s) ∧
  MODEL_REGISTRY (register_model n dataclass cls s).2 = MODEL_REGISTRY s.
Proof.
  intros Hn. rewrite register_model_duplicate by done. done.
Qed.

Lemma register_model_twice_fails_witness :
  is_Some (MODEL_REGISTRY (run_calls zoo_calls) !! "lstm") ∧
  register_model "lstm" (Some ECGResNetConfig) ECGResNet (run_calls zoo_calls) =
    (Raise (ValueError
       [Text "Cannot register duplicate model ("; Text "lstm"; Text ")"]),
     run_calls zoo_calls).
Proof.
  assert (H : is_Some (MODEL_REGISTRY (run_calls zoo_calls) !! "lstm")).
  { exists LSTM. vm_compute. reflexivity. }
  split; [exact H|].
  exact (proj1 (register_model_twice_fails (run_calls zoo_calls) "lstm"
                  (Some ECGResNetConfig) ECGResNet H)).
Defined.

(** C3: registering a class that extends [BaseModel] under a free name with
    a schema that does not extend [Dataclass] raises, and the state after
    the failed call still maps the name to the class in [MODEL_REGISTRY]:
    the write of line 136 precedes the schema check and is not undone.  No
    other table is touched. *)
Theorem register_model_bad_schema_not_rolled_back (s : registries)
    (name : string) (dc : dataclass) (cls : pyclass) :
  MODEL_REGISTRY s !! name = None →
  cls_extends_BaseModel cls = true →
  dc_extends_Dataclass dc = false →
  ∃ s',
    register_model name (Some dc) cls s =
      (Raise (ValueError
         [Text "Dataclass "; StrClass (dc_name dc);
          Text " must extend Dataclass"]), s') ∧
    MODEL_REGISTRY s' !! name = Some cls ∧
    MODEL_REGISTRY s' = <[name := cls]> (MODEL_REGISTRY s) ∧
    MODEL_REGISTRY s' ≠ MODEL_REGISTRY s ∧
    MODEL_DATACLASS_REGISTRY s' = MODEL_DATACLASS_REGISTRY s ∧
    ARCH_MODEL_REGISTRY s' = ARCH_MODEL_REGISTRY s ∧
    ARCH_CONFIG_REGISTRY s' = ARCH_CONFIG_REGISTRY s.
Proof.
  intros Hn Hc Hd. exists (with_model name cls s).
  rewrite register_model_not_a_schema by done. simpl.
  split_and!; try done.
  - apply lookup_insert_eq.
  - intros Heq. assert (H : <[name := cls]> (MODEL_REGISTRY s) !! name = None)
      by (by rewrite Heq).
    by rewrite lookup_insert_eq in H.
Qed.

Lemma register_model_bad_schema_not_rolled_back_witness :
  ∃ s',
    register_model "ecg_resnet" (Some NotASchema) ECGResNet empty_registries =
      (Raise (ValueError
         [Text "Dataclass "; StrClass "NotASchema";
          Text " must extend Dataclass"]), s') ∧
    MODEL_REGISTRY s' !! "ecg_resnet" = Some ECGResNet.
Proof.
  destruct (register_model_bad_schema_not_rolled_back empty_registries
              "ecg_resnet" NotASchema ECGResNet)
    as (s' & Hr & Hm & _); [reflexivity | reflexivity | reflexivity |].
  exists s'. split; [exact Hr | exact Hm].
Defined.

(** ** Registering an architecture *)

Lemma exec_architectures_model_registry
    (archs : list (string * string * pyfn)) (s : registries) :
  MODEL_REGISTRY
    (foldl (λ s r, exec_call (RegisterModelArchitecture r.1.1 r.1.2 r.2) s)
       s archs) = MODEL_REGISTRY s.
Proof.
  revert s. induction archs as [|[[m a] fn] archs IH]; intros s; [done|].
  change (MODEL_REGISTRY
    (foldl (λ s r, exec_call (RegisterModelArchitecture r.1.1 r.1.2 r.2) s)
       (exec_call (RegisterModelArchitecture m a fn) s) archs) =
    MODEL_REGISTRY s).
  rewrite IH.
  by destruct (exec_architecture_cases m a fn s) as [-> | (cls & _ & _ & ->)].
Qed.

(** C6: registering an architecture function for a model name [m] that is
    not in [MODEL_REGISTRY] raises the unknown-model [ValueError] and
    changes nothing; this holds for every architecture name and function,
    and after any architecture registrations issued in between (which may
    themselves succeed or fail). *)
Theorem register_architecture_unknown_model (s : registries)
    (archs : list (string * string * pyfn)) (m a : string) (fn : pyfn) :
  MODEL_REGISTRY s !! m = None →
  let s' := foldl (λ s r, exec_call (RegisterModelArchitecture r.1.1 r.1.2 r.2) s)
              s archs in
  register_model_architecture m a fn s' =
    (Raise (ValueError
       [Text "Cannot register model architecture for unknown model type (";
        Text m; Text ")"]), s').
Proof.
  intros Hm s'. apply register_model_architecture_unknown.
  subst s'. by rewrite exec_architectures_model_registry.
Qed.

Lemma register_architecture_unknown_model_witness :
  MODEL_REGISTRY (run_calls zoo_calls) !! "transformer" = None ∧
  register_model_architecture "transformer" "lstm_small" lstm_small
    (foldl (λ s r, exec_call (RegisterModelArchitecture r.1.1 r.1.2 r.2) s)
       (run_calls zoo_calls)
       [("lstm", "lstm_large", lstm_small);
        ("transformer", "transformer_tiny", Noop)]) =
    (Raise (ValueError
       [Text "Cannot register model architecture for unknown model type (";
        Text "transformer"; Text ")"]),
     foldl (λ s r, exec_call (RegisterModelArchitecture r.1.1 r.1.2 r.2) s)
       (run_calls zoo_calls)
       [("lstm", "lstm_large", lstm_small);
        ("transformer", "transformer_tiny", Noop)]).
Proof.
  assert (H : MODEL_REGISTRY (run_calls zoo_calls) !! "transformer" = None)
    by (vm_compute; reflexivity).
  split; [exact H|].
  exact (register_architecture_unknown_model (run_calls zoo_calls)
           [("lstm", "lstm_large", lstm_small);
            ("transformer", "transformer_tiny", Noop)]
           "transformer" "lstm_small" lstm_small H).
Defined.

(** ** Invariants of the tables *)

(** C10: after every sequence of registration calls, successful or failed,
    the three architecture tables have the same key set, the class stored
    for an architecture name is the class [MODEL_REGISTRY] holds for the
    model name recorded for that architecture, and every key of
    [MODEL_DATACLASS_REGISTRY] is a key of [MODEL_REGISTRY]. *)
Theorem registry_invariant_run (cs : list call) :
  registry_invariant (run_calls cs).
Proof.
  apply run_calls_ind.
  - apply registry_invariant_empty.
  - apply registry_invariant_exec_call.
Qed.

(** ** The automatic no-op architecture *)

(** A schema registration returns only when every check passed. *)
Lemma register_model_schema_returns (s s' : registries) (name : string)
    (dc : dataclass) (cls r : pyclass) :
  register_model name (Some dc) cls s = (Ok r, s') →
  MODEL_REGISTRY s !! name = None ∧
  ARCH_MODEL_REGISTRY s !! name = None ∧
  r = cls ∧
  s' = with_architecture name name cls Noop (with_schema name cls dc s) ∧
  dc_init_error dc = None ∧
  dc_store_error dc = None.
Proof.
  intros Hok.
  destruct (MODEL_REGISTRY s !! name) as [c|] eqn:Hn.
  { rewrite register_model_duplicate in Hok by eauto. discriminate. }
  destruct (cls_extends_BaseModel cls) eqn:Hc.
  2:{ rewrite register_model_not_a_model in Hok by done. discriminate. }
  destruct (dc_extends_Dataclass dc) eqn:Hd.
  2:{ rewrite register_model_not_a_schema in Hok by done. discriminate. }
  destruct (dc_init_error dc) as [e|] eqn:Hi.
  { rewrite (register_model_not_constructed _ _ _ _ e) in Hok by done.
    discriminate. }
  destruct (dc_store_error dc) as [e|] eqn:Hs.
  { rewrite (register_model_not_stored _ _ _ _ e) in Hok by done.
    discriminate. }
  destruct (ARCH_MODEL_REGISTRY s !! name) as [c|] eqn:Ha.
  { rewrite register_model_schema_clash in Hok by eauto. discriminate. }
  rewrite register_model_schema_ok in Hok by done.
  by inversion Hok.
Qed.




(** ** Fields of a configuration *)

Lemma get_field_set_field_eq (k : string) (v : value) (fs : fields) :
  get_field k (set_field k v fs) = Some v.
Proof.
  induction fs as [|[k' v'] fs IH]; simpl.
  - by rewrite String.eqb_refl.
  - destruct (String.eqb k k') eqn:E; simpl.
    + by rewrite String.eqb_refl.
    + by rewrite E.
Qed.

Lemma get_field_set_field_ne (k k0 : string) (v : value) (fs : fields) :
  k0 ≠ k → get_field k0 (set_field k v fs) = get_field k0 fs.
Proof.
  intros Hne. induction fs as [|[k' v'] fs IH]; simpl.
  - apply String.eqb_neq in Hne. by rewrite Hne.
  - destruct (String.eqb k k') eqn:E; simpl.
    + apply String.eqb_eq in E. subst k'.
      apply String.eqb_neq in Hne. by rewrite Hne.
    + by rewrite IH.
Qed.

Lemma truthy_VStr (n : string) : n ≠ "" → truthy (VStr n) = true.
Proof. intros Hn. simpl. apply String.eqb_neq in Hn. by rewrite Hn. Qed.

Lemma value_in_dict_VStr {V} (k : string) (d : gmap string V) :
  value_in_dict (VStr k) d = in_dict k d.
Proof. done. Qed.




(** ** Resolving the class and the configuration *)

Section BuildProperties.

Context {task weights instance : Type}.
Variable merge_with_parent : fields → cfg → bool → outcome cfg.
Variable populate_dataclass : fields → cfg → outcome cfg.
Variable cls_build_model : pyclass → cfg → option task → outcome instance.
Variable load_checkpoint_to_cpu : string → outcome (checkpoint weights).
Variable load_state_dict : instance → weights → outcome instance.

(** The definitions of the builder, as equations. *)
Lemma reconcile_eq (model_type : value) (c : cfg) (fc : bool) (s : registries) :
  reconcile merge_with_parent populate_dataclass model_type c fc s =
    if value_in_dict model_type (MODEL_DATACLASS_REGISTRY s) then
      dc ← getitem_value (MODEL_DATACLASS_REGISTRY s) model_type;
      defaults ← construct dc;
      if is_namespace c then populate_dataclass defaults c
      else merge_with_parent defaults c fc
    else if value_in_dict model_type (ARCH_CONFIG_REGISTRY s) then
      fn ← getitem_value (ARCH_CONFIG_REGISTRY s) model_type;
      call_fn fn c
    else mret c.
Proof. reflexivity. Qed.

Lemma resolve_eq (c : cfg) (fc : bool) (s : registries) :
  resolve merge_with_parent populate_dataclass c fc s =
    '(model_type, c) ← infer_model_type (normalise c) s;
    model ← lookup_model model_type s;
    c ← reconcile merge_with_parent populate_dataclass model_type c fc s;
    match model with
    | Some model => mret (model, c)
    | None =>
        msg ← str_concat
          [Text "Could not infer model type from "; StrCfg c; Text ". ";
           Text "Available models: ";
           StrKeys (dom (MODEL_DATACLASS_REGISTRY s));
           Text " Requested model type: "] model_type;
        Raise (AssertionError msg)
    end.
Proof. reflexivity. Qed.

Lemma build_model_eq (c : cfg) (t : option task) (fc : bool)
    (checkpoint_path : option string) (s : registries) :
  build_model merge_with_parent populate_dataclass cls_build_model
    load_checkpoint_to_cpu load_state_dict c t fc checkpoint_path s =
    '(model, c) ← resolve merge_with_parent populate_dataclass c fc s;
    model_instance ← cls_build_model model c t;
    match checkpoint_path with
    | Some path =>
        if fc then
          state ← load_checkpoint_to_cpu path;
          load_state_dict model_instance (ckpt_model state)
        else mret model_instance
    | None => mret model_instance
    end.
Proof. reflexivity. Qed.

Lemma build_model_from_checkpoint_eq (checkpoint_path : string)
    (s : registries) :
  build_model_from_checkpoint merge_with_parent populate_dataclass
    cls_build_model load_checkpoint_to_cpu load_state_dict checkpoint_path s =
    state ← load_checkpoint_to_cpu checkpoint_path;
    model_cfg ← force_no_pretrained_weights (ckpt_cfg_model state);
    build_model merge_with_parent populate_dataclass cls_build_model
      load_checkpoint_to_cpu load_state_dict model_cfg None true
      (Some checkpoint_path) s.
Proof. reflexivity. Qed.

Local Abbreviation reconcile := (reconcile merge_with_parent populate_dataclass).
Local Abbreviation resolve := (resolve merge_with_parent populate_dataclass).
Local Abbreviation build_model :=
  (build_model merge_with_parent populate_dataclass cls_build_model
     load_checkpoint_to_cpu load_state_dict).
Local Abbreviation build_model_from_checkpoint :=
  (build_model_from_checkpoint merge_with_parent populate_dataclass
     cls_build_model load_checkpoint_to_cpu load_state_dict).

(** A configuration that names its model type keeps it and is not
    descended into. *)
Lemma infer_model_type_named (c : cfg) (s : registries) (mt : string) :
  py_or (getattr c "_name") (getattr c "arch") = VStr mt →
  mt ≠ "" →
  infer_model_type c s = Ok (VStr mt, c).
Proof.
  intros Hnamed Hmt. unfold infer_model_type. rewrite Hnamed.
  by rewrite truthy_VStr.
Qed.

(** When the inferred model type is not a schema name, the configuration
    was not descended into. *)
Lemma infer_model_type_same_cfg (c c' : cfg) (s : registries) (mt : value) :
  infer_model_type c s = Ok (mt, c') →
  value_in_dict mt (MODEL_DATACLASS_REGISTRY s) = false →
  c' = c.
Proof.
  unfold infer_model_type.
  destruct (truthy (py_or _ _)); simpl; [by intros [= _ ->]|].
  destruct (py_len c) as [n|e]; simpl; [|done].
  destruct (Nat.eqb n 1); simpl; [|by intros [= _ ->]].
  destruct (first_key c) as [key|e]; simpl; [|done].
  destruct (in_dict key (MODEL_DATACLASS_REGISTRY s)) eqn:Hin; [|done].
  destruct (cfg_getitem c key) as [c0|e]; simpl; [|done].
  intros [= <- <-]. simpl. by rewrite Hin.
Qed.

Lemma lookup_model_architecture (s : registries) (mt : string) (cls : pyclass) :
  ARCH_MODEL_REGISTRY s !! mt = Some cls →
  lookup_model (VStr mt) s = Ok (Some cls).
Proof.
  intros Ha. unfold lookup_model. simpl.
  rewrite (in_dict_Some _ _ _ Ha). unfold getitem. by rewrite Ha.
Qed.

Lemma lookup_model_unknown (s : registries) (mt : value) :
  value_in_dict mt (ARCH_MODEL_REGISTRY s) = false →
  value_in_dict mt (MODEL_DATACLASS_REGISTRY s) = false →
  lookup_model mt s = Ok None.
Proof. intros Ha Hd. unfold lookup_model. by rewrite Ha, Hd. Qed.

Lemma reconcile_unregistered (mt : value) (c : cfg) (fc : bool)
    (s : registries) :
  value_in_dict mt (MODEL_DATACLASS_REGISTRY s) = false →
  value_in_dict mt (ARCH_CONFIG_REGISTRY s) = false →
  reconcile mt c fc s = Ok c.
Proof. intros Hd Ha. rewrite reconcile_eq. by rewrite Hd, Ha. Qed.

(** C1, as the code has it: the legacy architecture table is consulted
    first.  Whenever the model type of a configuration is a key of
    [ARCH_MODEL_REGISTRY], the class [build_model] resolves is the entry
    of that table, also when the same name is registered as a
    schema-driven model; the schema only decides the configuration. *)
Theorem legacy_architecture_class_wins (c c' : cfg) (fc : bool)
    (s : registries) (mt : string) (cls : pyclass) :
  infer_model_type (normalise c) s = Ok (VStr mt, c') →
  ARCH_MODEL_REGISTRY s !! mt = Some cls →
  lookup_model (VStr mt) s = Ok (Some cls) ∧
  resolve c fc s = (rc ← reconcile (VStr mt) c' fc s; mret (cls, rc)).
Proof.
  intros Hinf Ha. split; [by apply lookup_model_architecture|].
  rewrite resolve_eq, Hinf. simpl.
  rewrite (lookup_model_architecture _ _ _ Ha). simpl.
  by destruct (reconcile _ _ _ _).
Qed.

(** C4: when neither a schema nor an architecture function is registered
    for the model type, the reconciliation step returns the configuration
    it was given, the same object the caller passed in (a Python dict
    having been turned into a [DictConfig] beforehand); so every
    configuration [resolve] returns for such a type is the input. *)
Theorem unregistered_type_passes_through (c c' : cfg) (fc : bool)
    (s : registries) (mt : value) :
  infer_model_type (normalise c) s = Ok (mt, c') →
  value_in_dict mt (MODEL_DATACLASS_REGISTRY s) = false →
  value_in_dict mt (ARCH_CONFIG_REGISTRY s) = false →
  c' = normalise c ∧
  reconcile mt c' fc s = Ok (normalise c) ∧
  ∀ model rc, resolve c fc s = Ok (model, rc) → rc = normalise c.
Proof.
  intros Hinf Hd Ha.
  pose proof (infer_model_type_same_cfg _ _ _ _ Hinf Hd) as ->.
  split; [done|]. split; [by apply reconcile_unregistered|].
  intros model rc. rewrite resolve_eq, Hinf. simpl.
  destruct (lookup_model mt s) as [[m|]|e]; simpl; try done.
  - rewrite reconcile_unregistered by done. simpl. by intros [= _ <-].
  - rewrite reconcile_unregistered by done. simpl.
    by destruct (str_concat _ _).
Qed.

(** A configuration whose model type is a string (a non-empty [_name] or
    [arch], or the only key of the configuration) registered neither as
    an architecture name nor as a schema name never builds.  After any
    registration calls, [build_model] raises: the assertion of line 85 when
    the type is named by [_name] or [arch], the exception of line 54 when
    it is the only key of the configuration.  In both cases the message
    carries [str(MODEL_DATACLASS_REGISTRY.keys())], the key view of all
    registered schemas, and ends with the requested model type. *)
Theorem unknown_model_type_fails (cs : list call) (c : cfg) (t : option task)
    (fc : bool) (checkpoint_path : option string) (mt : string) :
  requests_model_type c mt →
  ARCH_MODEL_REGISTRY (run_calls cs) !! mt = None →
  MODEL_DATACLASS_REGISTRY (run_calls cs) !! mt = None →
  ∃ e msg,
    build_model c t fc checkpoint_path (run_calls cs) = Raise e ∧
    diagnostic e = Some msg ∧
    StrKeys (dom (MODEL_DATACLASS_REGISTRY (run_calls cs))) ∈ msg ∧
    last msg = Some (Text mt).
Proof.
  intros Hreq Ha Hd.
  pose proof (registry_invariant_reachable cs) as (_ & H2 & _ & _).
  assert (Hc : ARCH_CONFIG_REGISTRY (run_calls cs) !! mt = None).
  { apply not_elem_of_dom. rewrite <- H2. by apply not_elem_of_dom. }
  apply in_dict_false in Ha, Hd, Hc.
  rewrite build_model_eq, resolve_eq.
  destruct Hreq as [[Hnamed Hmt] | (Hnone & Hlen & Hkey)].
  - rewrite (infer_model_type_named _ _ _ Hnamed Hmt). simpl.
    rewrite lookup_model_unknown by done. simpl.
    rewrite reconcile_unregistered by done. simpl.
    eexists _, _. split; [reflexivity|]. split; [reflexivity|].
    split; [set_solver | done].
  - unfold infer_model_type. rewrite Hnone, Hlen. simpl.
    rewrite Hkey. simpl. rewrite Hd. simpl.
    eexists _, _. split; [reflexivity|]. split; [reflexivity|].
    split; [set_solver | done].
Qed.

(** C7, where the code departs from it: a configuration whose model type
    is not a string is registered under no name, yet its build does not
    end in the diagnostic.  When [_name] and [arch] give no string (both
    absent or [None], or a number, a flag or a mapping) and the
    configuration is not taken as a single-key directory (the value is
    truthy, or [len(cfg)] is not 1), then in every state of the registries
    no class is found, the assertion of line 85 fails, and evaluating its
    message raises [TypeError] at [" Requested model type: " + model_type]
    (line 90): the failure carries neither the schema names nor the
    requested type. *)
Theorem non_string_model_type_raises_type_error (s : registries) (c : cfg)
    (t : option task) (fc : bool) (checkpoint_path : option string) :
  (∀ k, py_or (getattr (normalise c) "_name") (getattr (normalise c) "arch")
        ≠ VStr k) →
  (truthy (py_or (getattr (normalise c) "_name") (getattr (normalise c) "arch"))
     = true ∨
   ∃ n, py_len (normalise c) = Ok n ∧ n ≠ 1) →
  build_model c t fc checkpoint_path s =
    Raise (TypeError [Text "can only concatenate str to str"]) ∧
  diagnostic (TypeError [Text "can only concatenate str to str"]) = None.
Proof.
  intros Hstr Hform. split; [|done].
  rewrite build_model_eq, resolve_eq.
  set (mt := py_or (getattr (normalise c) "_name")
                   (getattr (normalise c) "arch")) in *.
  assert (Hinf : infer_model_type (normalise c) s = Ok (mt, normalise c)).
  { unfold infer_model_type. fold mt.
    destruct Hform as [-> | (n & -> & Hn)]; [done|].
    destruct (truthy mt); simpl; [done|].
    apply Nat.eqb_neq in Hn. by rewrite Hn. }
  rewrite Hinf. simpl.
  assert (Hno : ∀ V (d : gmap string V), value_in_dict mt d = false).
  { intros V d. destruct mt; try done. by destruct (Hstr s0). }
  rewrite lookup_model_unknown by apply Hno. simpl.
  rewrite reconcile_unregistered by apply Hno. simpl.
  destruct mt; try done. by destruct (Hstr s0).
Qed.

(** ** Rebuilding from a checkpoint *)

Lemma setattr_flag (c : cfg) (name : string) (v : value) :
  hasattr c name = true →
  ∃ c', setattr c name v = Ok c' ∧
        hasattr c' name = true ∧
        getattr c' name = v ∧
        ∀ k, k ≠ name →
          getattr c' k = getattr c k ∧ hasattr c' k = hasattr c k.
Proof.
  assert (Hset : ∀ fs, has_field name (set_field name v fs) = true).
  { intros fs. unfold has_field. by rewrite get_field_set_field_eq. }
  assert (Hother : ∀ fs k, k ≠ name →
            has_field k (set_field name v fs) = has_field k fs).
  { intros fs k Hk. unfold has_field. by rewrite get_field_set_field_ne. }
  destruct c as [fs|fs|fs|[| | | |fs]]; simpl; try done; intros _;
    eexists; (split; [reflexivity|]); simpl;
    rewrite Hset, get_field_set_field_eq;
    (split_and!; [done|done|]); intros k Hk;
    by rewrite get_field_set_field_ne, Hother.
Qed.

(** C9: [build_model_from_checkpoint] reads the model configuration of
    the checkpoint and hands it to [build_model] with [task=None],
    [from_checkpoint=True] and the same checkpoint path.  When the
    configuration has a [no_pretrained_weights] attribute whose value is
    false, the configuration handed over has that attribute set to [True]
    and is otherwise the same; when the attribute is missing, or its value
    is already true, the configuration is handed over as it was read. *)
Theorem build_from_checkpoint_forces_flag (checkpoint_path : string)
    (state : checkpoint weights) (s : registries) :
  load_checkpoint_to_cpu checkpoint_path = Ok state →
  let model_cfg := ckpt_cfg_model state in
  (hasattr model_cfg "no_pretrained_weights" = true →
   truthy (getattr model_cfg "no_pretrained_weights") = false →
   ∃ model_cfg',
     setattr model_cfg "no_pretrained_weights" (VBool true) = Ok model_cfg' ∧
     getattr model_cfg' "no_pretrained_weights" = VBool true ∧
     (∀ k, k ≠ "no_pretrained_weights" →
        getattr model_cfg' k = getattr model_cfg k ∧
        hasattr model_cfg' k = hasattr model_cfg k) ∧
     build_model_from_checkpoint checkpoint_path s =
       build_model model_cfg' None true (Some checkpoint_path) s) ∧
  (hasattr model_cfg "no_pretrained_weights" = false ∨
   truthy (getattr model_cfg "no_pretrained_weights") = true →
   build_model_from_checkpoint checkpoint_path s =
     build_model model_cfg None true (Some checkpoint_path) s).
Proof.
  intros Hload model_cfg. split.
  - intros Hhas Hfalse.
    destruct (setattr_flag model_cfg "no_pretrained_weights" (VBool true) Hhas)
      as (c' & Hset & _ & Hget & Hother).
    exists c'. split_and!; try done.
    rewrite build_model_from_checkpoint_eq, Hload. simpl.
    unfold force_no_pretrained_weights. fold model_cfg.
    by rewrite Hhas, Hfalse, Hset.
  - intros Hcase.
    rewrite build_model_from_checkpoint_eq, Hload. simpl.
    unfold force_no_pretrained_weights. fold model_cfg.
    by destruct Hcase as [-> | ->]; rewrite ?andb_false_r.
Qed.

End BuildProperties.

Lemma legacy_architecture_class_wins_witness :
  infer_model_type (normalise (PlainDict [("_name", VStr "ecg_resnet")]))
    (run_calls clash_calls) =
    Ok (VStr "ecg_resnet", DictConfig [("_name", VStr "ecg_resnet")]) ∧
  ARCH_MODEL_REGISTRY (run_calls clash_calls) !! "ecg_resnet" = Some LSTM ∧
  lookup_model (VStr "ecg_resnet") (run_calls clash_calls) = Ok (Some LSTM) ∧
  resolve spec_merge_with_parent spec_populate_dataclass
    (PlainDict [("_name", VStr "ecg_resnet")]) false (run_calls clash_calls) =
    Ok (LSTM,
        DictConfig [("_name", VStr "ecg_resnet"); ("embed_dim", VInt 256);
                    ("no_pretrained_weights", VBool false)]).
Proof.
  assert (Hinf : infer_model_type
            (normalise (PlainDict [("_name", VStr "ecg_resnet")]))
            (run_calls clash_calls) =
            Ok (VStr "ecg_resnet", DictConfig [("_name", VStr "ecg_resnet")]))
    by (vm_compute; reflexivity).
  assert (Ha : ARCH_MODEL_REGISTRY (run_calls clash_calls) !! "ecg_resnet"
               = Some LSTM) by (vm_compute; reflexivity).
  destruct (legacy_architecture_class_wins spec_merge_with_parent
              spec_populate_dataclass _ _ false _ _ _ Hinf Ha) as [Hl Hr].
  split_and!; [exact Hinf | exact Ha | exact Hl |].
  rewrite Hr. vm_compute. reflexivity.
Defined.

(** C1, as the specification words it, fails: a legacy architecture of
    [lstm] took the name [ecg_resnet] before the schema-driven model of
    that name was registered.  The name is then a key of both
    [ARCH_MODEL_REGISTRY] and [MODEL_DATACLASS_REGISTRY], the schema-driven
    class is [ECGResNet], and the class resolved is [LSTM]. *)
Lemma schema_precedence_counterexample :
  ARCH_MODEL_REGISTRY (run_calls clash_calls) !! "ecg_resnet" = Some LSTM ∧
  MODEL_DATACLASS_REGISTRY (run_calls clash_calls) !! "ecg_resnet"
    = Some ECGResNetConfig ∧
  MODEL_REGISTRY (run_calls clash_calls) !! "ecg_resnet" = Some ECGResNet ∧
  infer_model_type (normalise (PlainDict [("_name", VStr "ecg_resnet")]))
    (run_calls clash_calls) =
    Ok (VStr "ecg_resnet", DictConfig [("_name", VStr "ecg_resnet")]) ∧
  lookup_model (VStr "ecg_resnet") (run_calls clash_calls) = Ok (Some LSTM) ∧
  lookup_model (VStr "ecg_resnet") (run_calls clash_calls)
    ≠ Ok (Some ECGResNet).
Proof. split_and!; vm_compute; try reflexivity. discriminate. Qed.

Lemma unregistered_type_passes_through_witness :
  reconcile spec_merge_with_parent spec_populate_dataclass
    (VStr "unknown_arch_xyz") (DictConfig [("arch", VStr "unknown_arch_xyz")])
    false (run_calls zoo_calls) =
    Ok (DictConfig [("arch", VStr "unknown_arch_xyz")]).
Proof.
  refine (proj1 (proj2 (unregistered_type_passes_through
    spec_merge_with_parent spec_populate_dataclass
    (PlainDict [("arch", VStr "unknown_arch_xyz")])
    (DictConfig [("arch", VStr "unknown_arch_xyz")]) false
    (run_calls zoo_calls) (VStr "unknown_arch_xyz") _ _ _)));
    vm_compute; reflexivity.
Defined.

Lemma unknown_model_type_fails_witness :
  ∃ e msg,
    build_model spec_merge_with_parent spec_populate_dataclass sym_build_model
      (sym_load_checkpoint example_checkpoints) sym_load_state_dict
      (PlainDict [("arch", VStr "unknown_arch_xyz")]) None false None
      (run_calls zoo_calls) = Raise e ∧
    diagnostic e = Some msg ∧
    StrKeys (dom (MODEL_DATACLASS_REGISTRY (run_calls zoo_calls))) ∈ msg ∧
    last msg = Some (Text "unknown_arch_xyz").
Proof.
  apply (unknown_model_type_fails spec_merge_with_parent
           spec_populate_dataclass sym_build_model
           (sym_load_checkpoint example_checkpoints) sym_load_state_dict
           zoo_calls (PlainDict [("arch", VStr "unknown_arch_xyz")])
           None false None "unknown_arch_xyz").
  - left. split; [vm_compute; reflexivity | discriminate].
  - vm_compute. reflexivity.
  - vm_compute. reflexivity.
Defined.

Lemma non_string_model_type_raises_type_error_witness :
  build_model spec_merge_with_parent spec_populate_dataclass sym_build_model
    (sym_load_checkpoint example_checkpoints) sym_load_state_dict
    (PlainDict [("lr", VInt 1); ("dropout", VInt 0)]) (Some "ecg_task")
    false None (run_calls zoo_calls) =
    Raise (TypeError [Text "can only concatenate str to str"]) ∧
  build_model spec_merge_with_parent spec_populate_dataclass sym_build_model
    (sym_load_checkpoint example_checkpoints) sym_load_state_dict
    (PlainDict []) (Some "ecg_task") false None (run_calls zoo_calls) =
    Raise (TypeError [Text "can only concatenate str to str"]) ∧
  build_model spec_merge_with_parent spec_populate_dataclass sym_build_model
    (sym_load_checkpoint example_checkpoints) sym_load_state_dict
    (PlainDict [("_name", VInt 5)]) (Some "ecg_task") false None
    (run_calls zoo_calls) =
    Raise (TypeError [Text "can only concatenate str to str"]).
Proof.
  split_and!.
  - apply (non_string_model_type_raises_type_error spec_merge_with_parent
             spec_populate_dataclass sym_build_model
             (sym_load_checkpoint example_checkpoints) sym_load_state_dict
             (run_calls zoo_calls)
             (PlainDict [("lr", VInt 1); ("dropout", VInt 0)])
             (Some "ecg_task") false None).
    + intros k. discriminate.
    + right. exists 2. split; [reflexivity | lia].
  - apply (non_string_model_type_raises_type_error spec_merge_with_parent
             spec_populate_dataclass sym_build_model
             (sym_load_checkpoint example_checkpoints) sym_load_state_dict
             (run_calls zoo_calls) (PlainDict []) (Some "ecg_task") false None).
    + intros k. discriminate.
    + right. exists 0. split; [reflexivity | lia].
  - apply (non_string_model_type_raises_type_error spec_merge_with_parent
             spec_populate_dataclass sym_build_model
             (sym_load_checkpoint example_checkpoints) sym_load_state_dict
             (run_calls zoo_calls) (PlainDict [("_name", VInt 5)])
             (Some "ecg_task") false None).
    + intros k. discriminate.
    + left. reflexivity.
Defined.

Lemma build_from_checkpoint_forces_flag_witness :
  build_model_from_checkpoint spec_merge_with_parent spec_populate_dataclass
    sym_build_model (sym_load_checkpoint example_checkpoints)
    sym_load_state_dict "ckpt.pt" (run_calls zoo_calls) =
  Ok (SymInstance ECGResNet
        (DictConfig [("_name", VStr "ecg_resnet"); ("embed_dim", VInt 512);
                     ("no_pretrained_weights", VBool true)])
        None (Some "weights")).
Proof.
  assert (Hload : sym_load_checkpoint example_checkpoints "ckpt.pt" =
            Ok (Checkpoint
                  (DictConfig [("_name", VStr "ecg_resnet");
                               ("embed_dim", VInt 512);
                               ("no_pretrained_weights", VBool false)])
                  "weights")) by (vm_compute; reflexivity).
  destruct (build_from_checkpoint_forces_flag spec_merge_with_parent
              spec_populate_dataclass sym_build_model
              (sym_load_checkpoint example_checkpoints) sym_load_state_dict
              "ckpt.pt" _ (run_calls zoo_calls) Hload) as [Hforce _].
  destruct Hforce as (c' & Hset & _ & _ & Hbuild);
    [vm_compute; reflexivity | vm_compute; reflexivity |].
  rewrite Hbuild. injection Hset as <-. vm_compute. reflexivity.
Defined.

(** ** Directory form and flat form of a schema-driven configuration *)


Lemma infer_model_type_flat (s : registries) (n : string) :
  n ≠ "" →
  infer_model_type (DictConfig [("_name", VStr n)]) s =
    Ok (VStr n, DictConfig [("_name", VStr n)]).
Proof.
  intros Hn. apply infer_model_type_named; [|done].
  unfold py_or. simpl. apply String.eqb_neq in Hn. by rewrite Hn.
Qed.

(** A schema-driven model type always resolves to a class. *)
Lemma lookup_model_schema (s : registries) (n : string) :
  registry_invariant s →
  is_Some (MODEL_DATACLASS_REGISTRY s !! n) →
  ∃ cls, lookup_model (VStr n) s = Ok (Some cls) ∧
         (ARCH_MODEL_REGISTRY s !! n = None → MODEL_REGISTRY s !! n = Some cls) ∧
         (∀ c, ARCH_MODEL_REGISTRY s !! n = Some c → c = cls).
Proof.
  intros (_ & _ & _ & Hsub) Hn. unfold lookup_model. simpl.
  destruct (in_dict n (ARCH_MODEL_REGISTRY s)) eqn:Ha.
  - apply in_dict_true in Ha as [cls Ha]. exists cls.
    unfold getitem. rewrite Ha. split_and!; [done | done | congruence].
  - assert (Hm : is_Some (MODEL_REGISTRY s !! n)).
    { apply elem_of_dom. apply elem_of_dom in Hn. set_solver. }
    apply in_dict_true in Hn. rewrite Hn. destruct Hm as [cls Hm].
    exists cls. unfold getitem. rewrite Hm. apply in_dict_false in Ha.
    split_and!; [done | done | congruence].
Qed.





(** * Further properties of the registration decorators *)

(** ** One call, one step *)

Lemma exec_call_step (c : call) (s : registries) :
  registry_step s (exec_call c s).
Proof.
  destruct c as [name dataclass cls | m a fn]; simpl.
  - destruct (MODEL_REGISTRY s !! name) as [c|] eqn:Hn.
    { rewrite register_model_duplicate by eauto. constructor. }
    destruct (cls_extends_BaseModel cls) eqn:Hc.
    2:{ rewrite register_model_not_a_model by done. constructor. }
    destruct dataclass as [dc|].
    2:{ rewrite register_model_plain by done. by constructor. }
    destruct (dc_extends_Dataclass dc) eqn:Hd.
    2:{ rewrite register_model_not_a_schema by done. by constructor. }
    destruct (dc_init_error dc) as [e|] eqn:Hi.
    { rewrite (register_model_not_constructed _ _ _ _ e) by done.
      apply step_schema_unstored; try done. left. by rewrite Hi. }
    destruct (dc_store_error dc) as [e|] eqn:Hs.
    { rewrite (register_model_not_stored _ _ _ _ e) by done.
      apply step_schema_unstored; try done. right. by rewrite Hs. }
    destruct (ARCH_MODEL_REGISTRY s !! name) as [c|] eqn:Ha.
    + rewrite register_model_schema_clash by eauto. by constructor.
    + rewrite register_model_schema_ok by done. by constructor.
  - destruct (register_model_architecture_cases s m a fn)
      as [[e He] | (cls & Hm & Ha & Hfn & Hok)].
    + rewrite He. constructor.
    + rewrite Hok. by constructor.
Qed.

Lemma registry_invariant_step (s s' : registries) :
  registry_step s s' → registry_invariant s → registry_invariant s'.
Proof.
  intros Hstep Hinv. destruct Hstep.
  - done.
  - by apply registry_invariant_class_attr, registry_invariant_with_model.
  - by apply registry_invariant_with_model.
  - by apply registry_invariant_with_schema_entry.
  - by apply registry_invariant_with_schema.
  - apply registry_invariant_with_architecture;
      [apply with_schema_model | by apply registry_invariant_with_schema].
  - by apply registry_invariant_with_architecture.
Qed.

Lemma run_from_snoc (s : registries) (cs : list call) (c : call) :
  run_from s (cs ++ [c]) = exec_call c (run_from s cs).
Proof. unfold run_from. by rewrite foldl_app. Qed.

Lemma run_calls_app (cs cs' : list call) :
  run_calls (cs ++ cs') = run_from (run_calls cs) cs'.
Proof. unfold run_calls, run_from. by rewrite foldl_app. Qed.

Lemma registry_invariant_run_from (s : registries) (cs : list call) :
  registry_invariant s → registry_invariant (run_from s cs).
Proof.
  intros Hinv. induction cs as [|c cs IH] using rev_ind; [done|].
  rewrite run_from_snoc.
  by apply (registry_invariant_step _ _ (exec_call_step c _)).
Qed.

(** ** When a registration returns *)

(** X1: [register_model(name, dataclass)(cls)] returns exactly when the
    name is free, the class extends [BaseModel] and, if a schema is
    given, the schema extends [Dataclass], constructing it, naming the
    instance and storing it in the configuration store (lines 147-149)
    raise nothing, and the name is not taken as an architecture name
    either; what it returns is the decorated class itself. *)
Theorem register_model_returns_iff (s : registries) (name : string)
    (dataclass : option dataclass) (cls : pyclass) :
  ((∃ r s', register_model name dataclass cls s = (Ok r, s')) ↔
   MODEL_REGISTRY s !! name = None ∧
   cls_extends_BaseModel cls = true ∧
   match dataclass with
   | None => True
   | Some dc =>
       dc_extends_Dataclass dc = true ∧
       dc_init_error dc = None ∧
       dc_store_error dc = None ∧
       ARCH_MODEL_REGISTRY s !! name = None
   end) ∧
  (∀ r s', register_model name dataclass cls s = (Ok r, s') → r = cls).
Proof.
  destruct (MODEL_REGISTRY s !! name) as [c|] eqn:Hn.
  { rewrite register_model_duplicate by eauto.
    split; [split|]; [intros (r & s' & [=]) | intros [[=] _] | intros r s' [=]]. }
  destruct (cls_extends_BaseModel cls) eqn:Hc.
  2:{ rewrite register_model_not_a_model by done.
      split; [split|];
        [intros (r & s' & [=]) | intros (_ & [=] & _) | intros r s' [=]]. }
  destruct dataclass as [dc|].
  2:{ rewrite register_model_plain by done.
      split; [split|]; [done | eauto | by intros r s' [= <- _]]. }
  destruct (dc_extends_Dataclass dc) eqn:Hd.
  2:{ rewrite register_model_not_a_schema by done.
      split; [split|];
        [intros (r & s' & [=]) | intros (_ & _ & [=] & _) | intros r s' [=]]. }
  destruct (dc_init_error dc) as [e|] eqn:Hi.
  { rewrite (register_model_not_constructed _ _ _ _ e) by done.
    split; [split|];
      [intros (r & s' & [=]) | intros (_ & _ & _ & [=] & _) | intros r s' [=]]. }
  destruct (dc_store_error dc) as [e|] eqn:Hs.
  { rewrite (register_model_not_stored _ _ _ _ e) by done.
    split; [split|];
      [intros (r & s' & [=]) | intros (_ & _ & _ & _ & [=] & _)
      | intros r s' [=]]. }
  destruct (ARCH_MODEL_REGISTRY s !! name) as [c|] eqn:Ha.
  - rewrite register_model_schema_clash by eauto.
    split; [split|];
      [intros (r & s' & [=]) | intros (_ & _ & _ & _ & _ & [=])
      | intros r s' [=]].
  - rewrite register_model_schema_ok by done.
    split; [split|]; [done | eauto | by intros r s' [= <- _]].
Qed.

(** X2: [register_model_architecture(model_name, arch_name)(fn)] returns
    exactly when the model name is registered, the architecture name is
    free and [fn] is callable; it returns [fn] itself; and a call that
    raises leaves every table as it was. *)
Theorem register_architecture_returns_iff (s : registries) (m a : string)
    (fn : pyfn) :
  ((∃ r s', register_model_architecture m a fn s = (Ok r, s')) ↔
   is_Some (MODEL_REGISTRY s !! m) ∧
   ARCH_MODEL_REGISTRY s !! a = None ∧
   callable fn = true) ∧
  (∀ r s', register_model_architecture m a fn s = (Ok r, s') → r = fn) ∧
  (∀ e s', register_model_architecture m a fn s = (Raise e, s') → s' = s).
Proof.
  destruct (MODEL_REGISTRY s !! m) as [cls|] eqn:Hm.
  2:{ rewrite register_model_architecture_unknown by done.
      split_and!; [split|..];
        [intros (r & s' & [=]) | intros ([? [=]] & _)
        | intros r s' [=] | by intros e s' [= _ <-]]. }
  destruct (ARCH_MODEL_REGISTRY s !! a) as [c|] eqn:Ha.
  { rewrite register_model_architecture_duplicate by eauto.
    split_and!; [split|..];
      [intros (r & s' & [=]) | intros (_ & [=] & _)
      | intros r s' [=] | by intros e s' [= _ <-]]. }
  destruct (callable fn) eqn:Hfn.
  - rewrite (register_model_architecture_ok _ _ _ _ cls) by done.
    split_and!; [split|..];
      [eauto | eauto | by intros r s' [= <- _] | intros e s' [=]].
  - rewrite register_model_architecture_not_callable by eauto.
    split_and!; [split|..];
      [intros (r & s' & [=]) | intros (_ & _ & [=])
      | intros r s' [=] | by intros e s' [= _ <-]].
Qed.

(** ** The inverse index *)

Lemma inverse_index_frame (s s' : registries) :
  ARCH_MODEL_INV_REGISTRY s' = ARCH_MODEL_INV_REGISTRY s →
  ARCH_MODEL_NAME_REGISTRY s' = ARCH_MODEL_NAME_REGISTRY s →
  inverse_index_consistent s ∧ inverse_index_nodup s →
  inverse_index_consistent s' ∧ inverse_index_nodup s'.
Proof.
  unfold inverse_index_consistent, inverse_index_nodup.
  by intros -> ->.
Qed.

Lemma inverse_index_with_architecture (m a : string) (cls : pyclass)
    (fn : pyfn) (s : registries) :
  ARCH_MODEL_NAME_REGISTRY s !! a = None →
  inverse_index_consistent s ∧ inverse_index_nodup s →
  inverse_index_consistent (with_architecture m a cls fn s) ∧
  inverse_index_nodup (with_architecture m a cls fn s).
Proof.
  intros Ha [Hcons Hnd].
  assert (Hfresh : ∀ m' archs,
            ARCH_MODEL_INV_REGISTRY s !! m' = Some archs → a ∉ archs).
  { intros m' archs Hm' Hin.
    assert (ARCH_MODEL_NAME_REGISTRY s !! a = Some m') as Hc
      by (apply Hcons; eauto).
    congruence. }
  split.
  - intros m' a'. simpl.
    destruct (decide (m' = m)) as [->|Hm].
    + rewrite lookup_insert_eq.
      destruct (decide (a' = a)) as [->|Hne].
      * rewrite lookup_insert_eq. split; [done|]. intros _.
        eexists. split; [done|]. set_solver.
      * rewrite lookup_insert_ne by done. etrans; [|apply Hcons]. split.
        -- intros (archs & [= <-] & Hin).
           apply elem_of_app in Hin as [Hin | Hin]; [|set_solver].
           destruct (ARCH_MODEL_INV_REGISTRY s !! m) as [old|] eqn:Hold;
             simpl in Hin; [eauto | set_solver].
        -- intros (archs & Hold & Hin). eexists. split; [done|].
           rewrite Hold. simpl. set_solver.
    + rewrite lookup_insert_ne by done.
      destruct (decide (a' = a)) as [->|Hne].
      * rewrite lookup_insert_eq. split.
        -- intros (archs & Hold & Hin). by destruct (Hfresh _ _ Hold).
        -- intros [= ->]. done.
      * rewrite lookup_insert_ne by done. apply Hcons.
  - intros m' archs. simpl.
    destruct (decide (m' = m)) as [->|Hm].
    + rewrite lookup_insert_eq. intros [= <-].
      apply NoDup_app. split_and!.
      * destruct (ARCH_MODEL_INV_REGISTRY s !! m) as [old|] eqn:Hold; simpl;
          [by eapply Hnd | constructor].
      * intros x Hx Hxa. apply list_elem_of_singleton in Hxa as ->.
        destruct (ARCH_MODEL_INV_REGISTRY s !! m) as [old|] eqn:Hold;
          simpl in Hx; [by destruct (Hfresh _ _ Hold) | set_solver].
      * apply NoDup_singleton.
    + rewrite lookup_insert_ne by done. apply Hnd.
Qed.

Lemma arch_name_free (s : registries) (a : string) :
  registry_invariant s →
  ARCH_MODEL_REGISTRY s !! a = None →
  ARCH_MODEL_NAME_REGISTRY s !! a = None ∧ ARCH_CONFIG_REGISTRY s !! a = None.
Proof.
  intros (H1 & H2 & _ & _) Ha. apply not_elem_of_dom in Ha.
  split; apply not_elem_of_dom; [by rewrite <- H1 | by rewrite <- H2].
Qed.

Lemma inverse_index_step (s s' : registries) :
  registry_step s s' →
  registry_invariant s →
  inverse_index_consistent s ∧ inverse_index_nodup s →
  inverse_index_consistent s' ∧ inverse_index_nodup s'.
Proof.
  intros Hstep Hinv Hidx.
  destruct Hstep as [| | | | |name cls dc Hn Hc Hd Ha|m a cls fn Hm Ha Hfn].
  - done.
  - by apply (inverse_index_frame s).
  - by apply (inverse_index_frame s).
  - by apply (inverse_index_frame s).
  - by apply (inverse_index_frame s).
  - apply inverse_index_with_architecture.
    + simpl. by apply arch_name_free.
    + by apply (inverse_index_frame s).
  - apply inverse_index_with_architecture; [|done]. by apply arch_name_free.
Qed.

(** X3: after every sequence of registration calls the inverse index
    [ARCH_MODEL_INV_REGISTRY] and the forward table
    [ARCH_MODEL_NAME_REGISTRY] agree: an architecture is listed under a
    model exactly when the forward table maps it to that model, and no
    list of architectures has a repeated entry. *)
Theorem inverse_index_agrees (cs : list call) :
  inverse_index_consistent (run_calls cs) ∧ inverse_index_nodup (run_calls cs).
Proof.
  induction cs as [|c cs IH] using rev_ind.
  - split.
    + intros m a. simpl. rewrite !lookup_empty. split; [|done].
      by intros (archs & [=] & _).
    + intros m archs. simpl. by rewrite lookup_empty.
  - rewrite run_calls_app. unfold run_from. simpl.
    eapply inverse_index_step; [apply exec_call_step | | done].
    apply registry_invariant_reachable.
Qed.

(** ** The tables only grow *)

Lemma tables_extend_refl (s : registries) : tables_extend s s.
Proof.
  unfold tables_extend. split_and!; try done.
  intros m archs Hm. exists []. by rewrite app_nil_r.
Qed.

Lemma tables_extend_trans (s1 s2 s3 : registries) :
  tables_extend s1 s2 → tables_extend s2 s3 → tables_extend s1 s3.
Proof.
  intros (A1 & A2 & A3 & A4 & A5 & A6) (B1 & B2 & B3 & B4 & B5 & B6).
  unfold tables_extend. split_and!; try (by etrans).
  intros m archs Hm. destruct (A6 _ _ Hm) as [more1 H1].
  destruct (B6 _ _ H1) as [more2 H2]. exists (more1 ++ more2)%list.
  by rewrite app_assoc.
Qed.

Lemma tables_extend_with_model (name : string) (cls : pyclass)
    (s : registries) :
  MODEL_REGISTRY s !! name = None → tables_extend s (with_model name cls s).
Proof.
  intros Hn. unfold tables_extend. simpl. split_and!; try done.
  - by apply insert_subseteq.
  - intros m archs Hm. exists []. by rewrite app_nil_r.
Qed.

Lemma tables_extend_with_schema (name : string) (cls : pyclass)
    (dc : dataclass) (s : registries) :
  registry_invariant s →
  MODEL_REGISTRY s !! name = None →
  tables_extend s (with_schema name cls dc s).
Proof.
  intros (_ & _ & _ & Hsub) Hn. unfold tables_extend. simpl.
  split_and!; try done.
  - by apply insert_subseteq.
  - apply insert_subseteq. apply not_elem_of_dom.
    apply not_elem_of_dom in Hn. set_solver.
  - intros m archs Hm. exists []. by rewrite app_nil_r.
Qed.

Lemma tables_extend_with_architecture (m a : string) (cls : pyclass)
    (fn : pyfn) (s : registries) :
  ARCH_MODEL_REGISTRY s !! a = None →
  ARCH_MODEL_NAME_REGISTRY s !! a = None →
  ARCH_CONFIG_REGISTRY s !! a = None →
  tables_extend s (with_architecture m a cls fn s).
Proof.
  intros H1 H2 H3. unfold tables_extend. simpl.
  split_and!; try done; try (by apply insert_subseteq).
  intros m' archs Hm'. destruct (decide (m' = m)) as [->|Hne].
  - exists [a]. by rewrite lookup_insert_eq, Hm'.
  - exists []. by rewrite lookup_insert_ne, app_nil_r.
Qed.

Lemma tables_extend_step (s s' : registries) :
  registry_step s s' → registry_invariant s → tables_extend s s'.
Proof.
  intros Hstep Hinv.
  destruct Hstep as [| | |name cls dc Hn Hc Hd He| |name cls dc Hn Hc Hd Ha
                     |m a cls fn Hm Ha Hfn].
  - apply tables_extend_refl.
  - by apply (tables_extend_with_model name cls).
  - by apply tables_extend_with_model.
  - by apply (tables_extend_with_schema name cls dc s).
  - by apply tables_extend_with_schema.
  - eapply tables_extend_trans; [by apply tables_extend_with_schema|].
    destruct (arch_name_free s name Hinv Ha).
    by apply tables_extend_with_architecture.
  - destruct (arch_name_free s a Hinv Ha).
    by apply tables_extend_with_architecture.
Qed.

Lemma tables_extend_run_from (s : registries) (cs : list call) :
  registry_invariant s → tables_extend s (run_from s cs).
Proof.
  intros Hinv. induction cs as [|c cs IH] using rev_ind.
  - apply tables_extend_refl.
  - rewrite run_from_snoc. eapply tables_extend_trans; [exact IH|].
    apply tables_extend_step; [apply exec_call_step|].
    by apply registry_invariant_run_from.
Qed.

(** X4: registration never removes or rebinds anything.  Whatever calls
    follow, successful or failed, every entry of [MODEL_REGISTRY],
    [MODEL_DATACLASS_REGISTRY] and the three architecture tables keeps its
    value, and every list of the inverse index is only appended to. *)
Theorem registries_only_grow (cs cs' : list call) :
  tables_extend (run_calls cs) (run_calls (cs ++ cs')).
Proof.
  rewrite run_calls_app. apply tables_extend_run_from.
  apply registry_invariant_reachable.
Qed.

(** ** What is stored has passed the checks *)

Lemma checked_entries_step (s s' : registries) :
  registry_step s s' → checked_entries s → checked_entries s'.
Proof.
  intros Hstep (H1 & H2 & H3 & H4).
  assert (Hins : ∀ (m : gmap string pyclass) k c,
            cls_extends_BaseModel c = true →
            (∀ n cls, m !! n = Some cls → cls_extends_BaseModel cls = true) →
            ∀ n cls, <[k := c]> m !! n = Some cls →
                     cls_extends_BaseModel cls = true).
  { intros m k c Hc Hm n cls. destruct (decide (n = k)) as [->|Hne].
    - rewrite lookup_insert_eq. by intros [= <-].
    - rewrite lookup_insert_ne by done. apply Hm. }
  assert (Hfn : ∀ k f, callable f = true →
            ∀ a fn, <[k := f]> (ARCH_CONFIG_REGISTRY s) !! a = Some fn →
                    callable fn = true).
  { intros k f Hf a fn. destruct (decide (a = k)) as [->|Hne].
    - rewrite lookup_insert_eq. by intros [= <-].
    - rewrite lookup_insert_ne by done. apply H4. }
  assert (Hdc : ∀ k d, dc_extends_Dataclass d = true →
            ∀ n dc, <[k := d]> (MODEL_DATACLASS_REGISTRY s) !! n = Some dc →
                    dc_extends_Dataclass dc = true).
  { intros k d Hd n dc. destruct (decide (n = k)) as [->|Hne].
    - rewrite lookup_insert_eq. by intros [= <-].
    - rewrite lookup_insert_ne by done. apply H2. }
  destruct Hstep as [|name cls Hn Hc|name cls Hn Hc|name cls dc Hn Hc Hd He
                     |name cls dc Hn Hc Hd
                     |name cls dc Hn Hc Hd Ha|m a cls fn Hm Ha Hf];
    unfold checked_entries; simpl; split_and!; eauto.
  by apply Hfn.
Qed.

(** X5: after every sequence of registration calls, every class in
    [MODEL_REGISTRY] and [ARCH_MODEL_REGISTRY] extends [BaseModel], every
    schema in [MODEL_DATACLASS_REGISTRY] extends [Dataclass] and every
    object in [ARCH_CONFIG_REGISTRY] is callable. *)
Theorem stored_entries_checked (cs : list call) :
  checked_entries (run_calls cs).
Proof.
  induction cs as [|c cs IH] using rev_ind.
  - unfold checked_entries. simpl. split_and!; intros ? ?;
      by rewrite lookup_empty.
  - rewrite run_calls_app. unfold run_from. simpl.
    by apply (checked_entries_step _ _ (exec_call_step c _)).
Qed.

(** ** Schemas and the configuration store *)

Lemma schema_entry_fresh (s : registries) (name : string) :
  registry_invariant s →
  MODEL_REGISTRY s !! name = None →
  MODEL_DATACLASS_REGISTRY s !! name = None.
Proof.
  intros (_ & _ & _ & Hsub) Hn. apply not_elem_of_dom.
  apply not_elem_of_dom in Hn. set_solver.
Qed.

Lemma schema_nodes_stored_entry (s : registries) (name : string)
    (cls : pyclass) (dc : dataclass) :
  MODEL_DATACLASS_REGISTRY s !! name = None →
  dc_init_error dc ≠ None ∨ dc_store_error dc ≠ None →
  schema_nodes_stored s →
  schema_nodes_stored (with_schema_entry name cls dc s).
Proof.
  intros Hfresh Herr [H1 H2]. split; simpl.
  - intros n dc'. destruct (decide (n = name)) as [->|Hne].
    + rewrite lookup_insert_eq. intros [= <-] Hi Hs. by destruct Herr.
    + rewrite lookup_insert_ne by done. apply H1.
  - intros n node Hnode. destruct (H2 n node Hnode) as (dc' & Hdc & Hrest).
    exists dc'. split; [|done].
    rewrite lookup_insert_ne; [done|]. intros <-. congruence.
Qed.

Lemma schema_nodes_stored_with_schema (s : registries) (name : string)
    (cls : pyclass) (dc : dataclass) :
  dc_init_error dc = None →
  dc_store_error dc = None →
  schema_nodes_stored s →
  schema_nodes_stored (with_schema name cls dc s).
Proof.
  intros Hi Hs [H1 H2]. split; simpl.
  - intros n dc'. destruct (decide (n = name)) as [->|Hne].
    + rewrite !lookup_insert_eq. by intros [= <-].
    + rewrite !lookup_insert_ne by done. apply H1.
  - intros n node. destruct (decide (n = name)) as [->|Hne].
    + rewrite !lookup_insert_eq. intros [= <-]. by exists dc.
    + rewrite !lookup_insert_ne by done. apply H2.
Qed.

(** A call that got past line 149 had a schema without errors. *)
Lemma exec_call_stored (c : call) (s : registries) :
  registry_invariant s →
  schema_nodes_stored s → schema_nodes_stored (exec_call c s).
Proof.
  intros Hinv Hst. destruct c as [name dataclass cls | m a fn]; simpl.
  - destruct (MODEL_REGISTRY s !! name) as [c|] eqn:Hn.
    { by rewrite register_model_duplicate by eauto. }
    destruct (cls_extends_BaseModel cls) eqn:Hc.
    2:{ by rewrite register_model_not_a_model by done. }
    destruct dataclass as [dc|].
    2:{ by rewrite register_model_plain by done. }
    destruct (dc_extends_Dataclass dc) eqn:Hd.
    2:{ by rewrite register_model_not_a_schema by done. }
    pose proof (schema_entry_fresh s name Hinv Hn) as Hfresh.
    destruct (dc_init_error dc) as [e|] eqn:Hi.
    { rewrite (register_model_not_constructed _ _ _ _ e) by done.
      apply schema_nodes_stored_entry; [done | | done]. left. by rewrite Hi. }
    destruct (dc_store_error dc) as [e|] eqn:Hs.
    { rewrite (register_model_not_stored _ _ _ _ e) by done.
      apply schema_nodes_stored_entry; [done | | done]. right. by rewrite Hs. }
    destruct (ARCH_MODEL_REGISTRY s !! name) as [c|] eqn:Ha.
    + rewrite register_model_schema_clash by eauto.
      by apply schema_nodes_stored_with_schema.
    + rewrite register_model_schema_ok by done.
      by apply (schema_nodes_stored_with_schema s name cls dc).
  - destruct (register_model_architecture_cases s m a fn)
      as [[e He] | (cls & Hm & Ha & Hfn & Hok)].
    + by rewrite He.
    + by rewrite Hok.
Qed.

(** X6: after every sequence of registration calls, each schema in
    [MODEL_DATACLASS_REGISTRY] for which lines 147-149 raise nothing (it
    can be constructed, named and stored) has a node in the [model] group
    of the configuration store under the same name, the constructed schema
    with its [_name] attribute set to the model name; and the store holds
    no node but these.  A schema for which one of those lines raises stays
    in [MODEL_DATACLASS_REGISTRY] without a node. *)
Theorem schema_nodes_in_config_store (cs : list call) :
  (∀ n dc, MODEL_DATACLASS_REGISTRY (run_calls cs) !! n = Some dc →
     dc_init_error dc = None → dc_store_error dc = None →
     ∃ node, CONFIG_STORE (run_calls cs) !! n = Some node ∧
             node = set_field "_name" (VStr n) (dc_defaults dc) ∧
             get_field "_name" node = Some (VStr n)) ∧
  (∀ n node, CONFIG_STORE (run_calls cs) !! n = Some node →
     ∃ dc, MODEL_DATACLASS_REGISTRY (run_calls cs) !! n = Some dc ∧
           dc_init_error dc = None ∧ dc_store_error dc = None ∧
           node = set_field "_name" (VStr n) (dc_defaults dc)).
Proof.
  assert (Hst : schema_nodes_stored (run_calls cs)).
  { induction cs as [|c cs IH] using rev_ind.
    - split; intros n x; simpl; by rewrite lookup_empty.
    - rewrite run_calls_app. unfold run_from. simpl.
      apply exec_call_stored; [apply registry_invariant_reachable | done]. }
  destruct Hst as [H1 H2]. split; [|done].
  intros n dc Hn Hi Hs. eexists. split_and!; [by apply H1 | done |].
  apply get_field_set_field_eq.
Qed.

(** A schema that cannot be constructed: the registration raises at line
    147, after the model and the schema have been entered, and neither a
    node nor the automatic architecture exists for the name. *)
Lemma schema_without_node_example :
  ∃ s', register_model "deep" (Some NeedsArgument) ECGResNet
          (run_calls zoo_calls) =
        (Raise (TypeError
           [Text "__init__() missing 1 required positional argument: 'depth'"]),
         s') ∧
    MODEL_REGISTRY s' !! "deep" = Some ECGResNet ∧
    MODEL_DATACLASS_REGISTRY s' !! "deep" = Some NeedsArgument ∧
    CONFIG_STORE s' !! "deep" = None ∧
    ARCH_CONFIG_REGISTRY s' !! "deep" = None.
Proof. eexists. split_and!; vm_compute; reflexivity. Qed.

(** * Further properties of the builder *)

Section BuildFurther.

Context {task weights instance : Type}.
Variable merge_with_parent : fields → cfg → bool → outcome cfg.
Variable populate_dataclass : fields → cfg → outcome cfg.
Variable cls_build_model : pyclass → cfg → option task → outcome instance.
Variable load_checkpoint_to_cpu : string → outcome (checkpoint weights).
Variable load_state_dict : instance → weights → outcome instance.

Local Abbreviation reconcile := (reconcile merge_with_parent populate_dataclass).
Local Abbreviation resolve := (resolve merge_with_parent populate_dataclass).
Local Abbreviation build_model :=
  (build_model merge_with_parent populate_dataclass cls_build_model
     load_checkpoint_to_cpu load_state_dict).
Local Abbreviation build_model_from_checkpoint :=
  (build_model_from_checkpoint merge_with_parent populate_dataclass
     cls_build_model load_checkpoint_to_cpu load_state_dict).

(** ** The legacy path *)

(** X7: after any registration calls, a configuration that names (by
    [_name] or [arch]) a registered architecture which is not a schema
    name resolves to the class registered for the architecture's model
    name, with the configuration the architecture function leaves
    behind; an exception of that function is the exception of the build. *)
Theorem legacy_architecture_applied (cs : list call) (c : cfg) (fc : bool)
    (a : string) (fn : pyfn) :
  py_or (getattr (normalise c) "_name") (getattr (normalise c) "arch") = VStr a →
  a ≠ "" →
  ARCH_CONFIG_REGISTRY (run_calls cs) !! a = Some fn →
  MODEL_DATACLASS_REGISTRY (run_calls cs) !! a = None →
  ∃ m cls,
    ARCH_MODEL_NAME_REGISTRY (run_calls cs) !! a = Some m ∧
    MODEL_REGISTRY (run_calls cs) !! m = Some cls ∧
    resolve c fc (run_calls cs) =
      (rc ← call_fn fn (normalise c); mret (cls, rc)).
Proof.
  intros Hnamed Hne Hfn Hd.
  pose proof (registry_invariant_reachable cs) as (_ & H2 & H3 & _).
  assert (Ha : a ∈ dom (ARCH_MODEL_REGISTRY (run_calls cs))).
  { rewrite H2. by apply elem_of_dom_2 in Hfn. }
  destruct (H3 a Ha) as (m & cls & Hm & Hcls & Hreg).
  exists m, cls. split_and!; try done.
  rewrite (resolve_eq merge_with_parent populate_dataclass).
  rewrite (infer_model_type_named _ _ _ Hnamed Hne). simpl.
  rewrite (lookup_model_architecture _ _ _ Hcls). simpl.
  rewrite (reconcile_eq merge_with_parent populate_dataclass). simpl.
  apply in_dict_false in Hd. rewrite Hd.
  rewrite (in_dict_Some _ _ _ Hfn). unfold getitem. rewrite Hfn. simpl.
  by destruct (call_fn fn (normalise c)).
Qed.

(** ** Checkpoint weights *)

(** X8: [build_model] touches the checkpoint only when a path is given
    and [from_checkpoint] is set.  Otherwise, in particular for a path
    given without [from_checkpoint], the result is what the factory of the
    resolved class returns, and neither the checkpoint reader nor the
    weight restoration is called. *)
Theorem checkpoint_ignored_unless_requested (c : cfg) (t : option task)
    (fc : bool) (checkpoint_path : option string) (s : registries) :
  fc = false ∨ checkpoint_path = None →
  build_model c t fc checkpoint_path s =
    ('(model, rc) ← resolve c fc s; cls_build_model model rc t).
Proof.
  intros Hcase.
  rewrite (build_model_eq merge_with_parent populate_dataclass).
  destruct (resolve c fc s) as [[model rc]|e]; simpl; [|done].
  destruct (cls_build_model model rc t) as [i|e]; simpl; [|done].
  destruct Hcase as [-> | ->]; [by destruct checkpoint_path | done].
Qed.

(** X9: rebuilding from a checkpoint reads the file at the given path for
    the configuration and again for the weights.  When the reads succeed
    and the class resolved from the stored configuration builds an
    instance (with no task), the result is that instance with
    [state["model"]] of the same checkpoint restored onto it. *)
Theorem rebuilt_with_checkpoint_weights (checkpoint_path : string)
    (state : checkpoint weights) (model_cfg rc : cfg) (model : pyclass)
    (i : instance) (s : registries) :
  load_checkpoint_to_cpu checkpoint_path = Ok state →
  force_no_pretrained_weights (ckpt_cfg_model state) = Ok model_cfg →
  resolve model_cfg true s = Ok (model, rc) →
  cls_build_model model rc None = Ok i →
  build_model_from_checkpoint checkpoint_path s =
    load_state_dict i (ckpt_model state).
Proof.
  intros Hload Hforce Hres Hbuild.
  rewrite (build_model_from_checkpoint_eq merge_with_parent populate_dataclass).
  rewrite Hload. simpl. rewrite Hforce. simpl.
  rewrite (build_model_eq merge_with_parent populate_dataclass).
  rewrite Hres. simpl. rewrite Hbuild. simpl. by rewrite Hload.
Qed.

(** ** Configurations without a model type *)

(** X10: an [argparse.Namespace] or a dataclass instance whose [_name]
    and [arch] are both missing or false never reaches the registries:
    [len(cfg)] raises [TypeError], whatever is registered. *)
Theorem attribute_config_without_type_fails (c : cfg) (t : option task)
    (fc : bool) (checkpoint_path : option string) (s : registries) :
  (∃ attrs, c = Namespace attrs ∨ c = DataclassInstance attrs) →
  truthy (py_or (getattr c "_name") (getattr c "arch")) = false →
  ∃ msg, build_model c t fc checkpoint_path s = Raise (TypeError msg).
Proof.
  intros [attrs Hc] Hnone.
  rewrite (build_model_eq merge_with_parent populate_dataclass).
  rewrite (resolve_eq merge_with_parent populate_dataclass).
  assert (Hnorm : normalise c = c) by (by destruct Hc as [-> | ->]).
  rewrite Hnorm. unfold infer_model_type. rewrite Hnone. simpl.
  destruct Hc as [-> | ->]; simpl; eauto.
Qed.

(** X11: the single-key form works for schema names only.  When the
    configuration names no model type and has exactly one key, and that
    key has no schema, the build raises the could-not-infer exception of
    line 54, also when the key is a registered model or architecture
    name. *)
Theorem directory_form_needs_schema (c : cfg) (t : option task)
    (fc : bool) (checkpoint_path : option string) (s : registries)
    (key : string) :
  truthy (py_or (getattr (normalise c) "_name")
                (getattr (normalise c) "arch")) = false →
  py_len (normalise c) = Ok 1 →
  first_key (normalise c) = Ok key →
  MODEL_DATACLASS_REGISTRY s !! key = None →
  build_model c t fc checkpoint_path s =
    Raise (Exception
      [Text "Could not infer model type from directory. Please add _name field to indicate model type. ";
       Text "Available models: ";
       StrKeys (dom (MODEL_DATACLASS_REGISTRY s));
       Text " Requested model type: ";
       Text key]).
Proof.
  intros Hnone Hlen Hkey Hd.
  rewrite (build_model_eq merge_with_parent populate_dataclass).
  rewrite (resolve_eq merge_with_parent populate_dataclass).
  unfold infer_model_type. rewrite Hnone, Hlen. simpl. rewrite Hkey. simpl.
  apply in_dict_false in Hd. by rewrite Hd.
Qed.

(** X12: in the single-key form the model type is the key, and the
    configuration handed to the schema merge is the value under the key:
    after any registration calls, [{n: v}] with a schema [dc] registered
    for [n] (and [n] neither [_name] nor [arch]) resolves to the class
    that [build_model] looks up for [n] and to
    [merge_with_parent(dc(), v, from_checkpoint)], an error of [dc()]
    being raised first.  The class looked up is the entry of
    [ARCH_MODEL_REGISTRY] for [n] when [n] is an architecture name, and
    [MODEL_REGISTRY[n]] otherwise; the two can differ.  A [_name] or
    [arch] entry inside [v] plays no part in choosing the class. *)
Theorem directory_form_descends (cs : list call) (n : string) (v : value)
    (dc : dataclass) (fc : bool) :
  MODEL_DATACLASS_REGISTRY (run_calls cs) !! n = Some dc →
  n ≠ "_name" → n ≠ "arch" →
  ∃ cls,
    lookup_model (VStr n) (run_calls cs) = Ok (Some cls) ∧
    (ARCH_MODEL_REGISTRY (run_calls cs) !! n = None →
     MODEL_REGISTRY (run_calls cs) !! n = Some cls) ∧
    (∀ c, ARCH_MODEL_REGISTRY (run_calls cs) !! n = Some c → c = cls) ∧
    resolve (PlainDict [(n, v)]) fc (run_calls cs) =
      (defaults ← construct dc;
       rc ← merge_with_parent defaults (Node v) fc; mret (cls, rc)).
Proof.
  intros Hn H1 H2.
  destruct (lookup_model_schema (run_calls cs) n
              (registry_invariant_reachable cs))
    as (cls & Hcls & Hmr & Harch); [eauto|].
  exists cls. split_and!; [done | done | done |].
  rewrite (resolve_eq merge_with_parent populate_dataclass).
  simpl normalise. unfold OmegaConf_create, DictConfig.
  assert (Hinf : infer_model_type (Node (VDict [(n, v)])) (run_calls cs)
                 = Ok (VStr n, Node v)).
  { unfold infer_model_type, py_or. cbn -[String.eqb truthy].
    apply not_eq_sym in H1, H2. apply String.eqb_neq in H1, H2.
    rewrite H1, H2. cbn -[String.eqb].
    rewrite (in_dict_Some _ _ _ Hn). cbn -[String.eqb].
    by rewrite String.eqb_refl. }
  rewrite Hinf. simpl. rewrite Hcls. simpl.
  rewrite (reconcile_eq merge_with_parent populate_dataclass). simpl.
  rewrite (in_dict_Some _ _ _ Hn). unfold getitem. rewrite Hn. simpl.
  destruct (construct dc) as [defaults|e]; simpl; [|done].
  by destruct (merge_with_parent _ _ _).
Qed.

(** X13: the relaxed merge of a checkpoint never applies to an
    [argparse.Namespace]: for such a configuration the resolved class and
    configuration are the same with and without [from_checkpoint]. *)
Theorem namespace_ignores_from_checkpoint (attrs : fields) (s : registries) :
  resolve (Namespace attrs) true s = resolve (Namespace attrs) false s.
Proof.
  rewrite !(resolve_eq merge_with_parent populate_dataclass). simpl normalise.
  destruct (infer_model_type (Namespace attrs) s) as [[mt c']|e] eqn:Hinf;
    [|done].
  assert (Hc : c' = Namespace attrs).
  { revert Hinf. unfold infer_model_type.
    destruct (truthy (py_or _ _)); simpl; [by intros [= _ <-]|done]. }
  subst c'. simpl. destruct (lookup_model mt s) as [model|e]; simpl; [|done].
  by rewrite !(reconcile_eq merge_with_parent populate_dataclass).
Qed.

End BuildFurther.

(** ** Registering, then building *)

(** X14: a model registered with a schema can be built under its own
    name from then on.  If [register_model(name, dataclass)(cls)] returns,
    then after any further registration calls, successful or not, the
    configuration [{"_name": name}] resolves to the class [cls] and to
    [merge_with_parent(dataclass(), cfg, from_checkpoint)]. *)
Theorem registered_schema_model_resolves
    (merge_with_parent : fields → cfg → bool → outcome cfg)
    (populate_dataclass : fields → cfg → outcome cfg)
    (cs cs' : list call) (name : string) (dc : dataclass) (cls r : pyclass)
    (s' : registries) (fc : bool) :
  register_model name (Some dc) cls (run_calls cs) = (Ok r, s') →
  name ≠ "" →
  resolve merge_with_parent populate_dataclass
    (PlainDict [("_name", VStr name)]) fc (run_from s' cs') =
    (rc ← merge_with_parent (dc_defaults dc)
            (DictConfig [("_name", VStr name)]) fc;
     mret (cls, rc)).
Proof.
  intros Hreg Hne.
  assert (Hs' : s' = exec_call (RegisterModel name (Some dc) cls) (run_calls cs))
    by (simpl; by rewrite Hreg).
  assert (Hinv : registry_invariant s').
  { rewrite Hs'. apply registry_invariant_exec_call.
    apply registry_invariant_reachable. }
  apply register_model_schema_returns in Hreg as (_ & _ & _ & Hst & Hi & _).
  destruct (tables_extend_run_from s' cs' Hinv) as (_ & Hdc & Harch & _).
  assert (Ha : ARCH_MODEL_REGISTRY (run_from s' cs') !! name = Some cls).
  { eapply lookup_weaken; [|exact Harch]. rewrite Hst. simpl.
    apply lookup_insert_eq. }
  assert (Hd : MODEL_DATACLASS_REGISTRY (run_from s' cs') !! name = Some dc).
  { eapply lookup_weaken; [|exact Hdc]. rewrite Hst. simpl.
    apply lookup_insert_eq. }
  rewrite resolve_eq. simpl normalise. unfold OmegaConf_create.
  rewrite infer_model_type_flat by done. simpl.
  rewrite (lookup_model_architecture _ _ _ Ha). simpl.
  rewrite reconcile_eq. simpl.
  rewrite (in_dict_Some _ _ _ Hd). unfold getitem. rewrite Hd. simpl.
  unfold construct. rewrite Hi. simpl.
  by destruct (merge_with_parent _ _ _).
Qed.

(** ** The further properties on the example registrations *)

Lemma legacy_architecture_applied_witness :
  resolve spec_merge_with_parent spec_populate_dataclass
    (PlainDict [("arch", VStr "lstm_small")]) false (run_calls zoo_calls) =
    Ok (LSTM, DictConfig [("arch", VStr "lstm_small"); ("hidden_dim", VInt 128)]).
Proof.
  destruct (legacy_architecture_applied spec_merge_with_parent
              spec_populate_dataclass zoo_calls
              (PlainDict [("arch", VStr "lstm_small")]) false
              "lstm_small" lstm_small)
    as (m & cls & Hm & Hcls & Hres);
    [vm_compute; reflexivity | discriminate | vm_compute; reflexivity
    | vm_compute; reflexivity |].
  rewrite Hres.
  assert (Hm' : ARCH_MODEL_NAME_REGISTRY (run_calls zoo_calls) !! "lstm_small"
                = Some "lstm") by (vm_compute; reflexivity).
  rewrite Hm' in Hm. injection Hm as <-.
  assert (Hc' : MODEL_REGISTRY (run_calls zoo_calls) !! "lstm" = Some LSTM)
    by (vm_compute; reflexivity).
  rewrite Hc' in Hcls. injection Hcls as <-.
  vm_compute. reflexivity.
Defined.

Lemma checkpoint_ignored_unless_requested_witness :
  build_model spec_merge_with_parent spec_populate_dataclass sym_build_model
    (sym_load_checkpoint example_checkpoints) sym_load_state_dict
    (PlainDict [("_name", VStr "ecg_resnet")]) (Some "ecg_task") false
    (Some "ckpt.pt") (run_calls zoo_calls) =
  Ok (SymInstance ECGResNet
        (DictConfig [("_name", VStr "ecg_resnet"); ("embed_dim", VInt 256);
                     ("no_pretrained_weights", VBool false)])
        (Some "ecg_task") None).
Proof.
  rewrite (checkpoint_ignored_unless_requested spec_merge_with_parent
             spec_populate_dataclass sym_build_model
             (sym_load_checkpoint example_checkpoints) sym_load_state_dict
             _ _ false (Some "ckpt.pt") _ (or_introl eq_refl)).
  vm_compute. reflexivity.
Defined.

Lemma rebuilt_with_checkpoint_weights_witness :
  build_model_from_checkpoint spec_merge_with_parent spec_populate_dataclass
    sym_build_model (sym_load_checkpoint example_checkpoints)
    sym_load_state_dict "ckpt.pt" (run_calls zoo_calls) =
  sym_load_state_dict
    (SymInstance ECGResNet
       (DictConfig [("_name", VStr "ecg_resnet"); ("embed_dim", VInt 512);
                    ("no_pretrained_weights", VBool true)])
       None None)
    "weights".
Proof.
  apply (rebuilt_with_checkpoint_weights spec_merge_with_parent
           spec_populate_dataclass sym_build_model
           (sym_load_checkpoint example_checkpoints) sym_load_state_dict
           "ckpt.pt"
           (Checkpoint
              (DictConfig [("_name", VStr "ecg_resnet"); ("embed_dim", VInt 512);
                           ("no_pretrained_weights", VBool false)])
              "weights")
           (DictConfig [("_name", VStr "ecg_resnet"); ("embed_dim", VInt 512);
                        ("no_pretrained_weights", VBool true)])
           (DictConfig [("_name", VStr "ecg_resnet"); ("embed_dim", VInt 512);
                        ("no_pretrained_weights", VBool true)])
           ECGResNet);
    vm_compute; reflexivity.
Defined.

Lemma attribute_config_without_type_fails_witness :
  ∃ msg,
    build_model spec_merge_with_parent spec_populate_dataclass sym_build_model
      (sym_load_checkpoint example_checkpoints) sym_load_state_dict
      (Namespace [("lr", VInt 1); ("arch", VNone)]) None false None
      (run_calls zoo_calls) = Raise (TypeError msg).
Proof.
  apply (attribute_config_without_type_fails spec_merge_with_parent
           spec_populate_dataclass sym_build_model
           (sym_load_checkpoint example_checkpoints) sym_load_state_dict).
  - exists [("lr", VInt 1); ("arch", VNone)]. left. reflexivity.
  - vm_compute. reflexivity.
Defined.

Lemma directory_form_needs_schema_witness :
  is_Some (MODEL_REGISTRY (run_calls zoo_calls) !! "lstm") ∧
  build_model spec_merge_with_parent spec_populate_dataclass sym_build_model
    (sym_load_checkpoint example_checkpoints) sym_load_state_dict
    (PlainDict [("lstm", VDict [("hidden_dim", VInt 64)])]) None false None
    (run_calls zoo_calls) =
    Raise (Exception
      [Text "Could not infer model type from directory. Please add _name field to indicate model type. ";
       Text "Available models: ";
       StrKeys (dom (MODEL_DATACLASS_REGISTRY (run_calls zoo_calls)));
       Text " Requested model type: ";
       Text "lstm"]).
Proof.
  split; [exists LSTM; vm_compute; reflexivity|].
  apply (directory_form_needs_schema spec_merge_with_parent
           spec_populate_dataclass sym_build_model
           (sym_load_checkpoint example_checkpoints) sym_load_state_dict);
    vm_compute; reflexivity.
Defined.

Lemma directory_form_descends_witness :
  resolve spec_merge_with_parent spec_populate_dataclass
    (PlainDict [("ecg_resnet", VDict [("embed_dim", VInt 512)])]) false
    (run_calls zoo_calls) =
    Ok (ECGResNet,
        DictConfig [("_name", VNone); ("embed_dim", VInt 512);
                    ("no_pretrained_weights", VBool false)]).
Proof.
  destruct (directory_form_descends spec_merge_with_parent
              spec_populate_dataclass zoo_calls "ecg_resnet"
              (VDict [("embed_dim", VInt 512)]) ECGResNetConfig false)
    as (cls & Hcls & _ & _ & Hres);
    [vm_compute; reflexivity | discriminate | discriminate |].
  rewrite Hres.
  assert (Hl : lookup_model (VStr "ecg_resnet") (run_calls zoo_calls)
               = Ok (Some ECGResNet)) by (vm_compute; reflexivity).
  rewrite Hl in Hcls. injection Hcls as <-.
  vm_compute. reflexivity.
Defined.

Lemma registered_schema_model_resolves_witness :
  resolve spec_merge_with_parent spec_populate_dataclass
    (PlainDict [("_name", VStr "ecg_resnet")]) false
    (run_from (run_calls zoo_calls)
       [RegisterModelArchitecture "lstm" "ecg_resnet" lstm_small;
        RegisterModel "ecg_resnet" None LSTM]) =
    Ok (ECGResNet,
        DictConfig [("_name", VStr "ecg_resnet"); ("embed_dim", VInt 256);
                    ("no_pretrained_weights", VBool false)]).
Proof.
  assert (Hreg : register_model "ecg_resnet" (Some ECGResNetConfig) ECGResNet
                   (run_calls [RegisterModel "lstm" None LSTM;
                      RegisterModelArchitecture "lstm" "lstm_small" lstm_small])
                 = (Ok ECGResNet, run_calls zoo_calls))
    by (vm_compute; reflexivity).
  rewrite (registered_schema_model_resolves spec_merge_with_parent
             spec_populate_dataclass _ _ "ecg_resnet" ECGResNetConfig
             ECGResNet ECGResNet (run_calls zoo_calls) false Hreg);
    [|discriminate].
  vm_compute. reflexivity.
Defined.

(** * Properties of the module discovery *)

(** ** Substrings *)

Lemma append_cons (a : Ascii.ascii) (x y : string) :
  (String a x ++ y)%string = String a (x ++ y)%string.
Proof. reflexivity. Qed.

Lemma substring_all (s : string) : String.substring 0 (String.length s) s = s.
Proof. induction s as [|a s IH]; simpl; [done | by rewrite IH]. Qed.

Lemma substring_split (s : string) (i : nat) :
  (String.substring 0 i s ++ String.substring i (String.length s - i) s)%string = s.
Proof.
  revert i. induction s as [|a s IH]; intros [|i]; simpl; try done.
  - by rewrite substring_all.
  - by rewrite append_cons, IH.
Qed.

Lemma substring_app (s : string) (i k m : nat) :
  String.substring i (k + m) s =
    (String.substring i k s ++ String.substring (i + k) m s)%string.
Proof.
  revert i k. induction s as [|a s IH]; intros [|i] [|k]; simpl; try done.
  - by rewrite append_cons, (IH 0 k).
  - exact (IH i 0).
  - exact (IH i (S k)).
Qed.

Lemma substring_length (s : string) (i k : nat) :
  String.length (String.substring i k s) = Nat.min k (String.length s - i).
Proof.
  revert i k. induction s as [|a s IH]; intros [|i] [|k]; simpl; try done.
  by rewrite IH, Nat.sub_0_r.
Qed.

(** The occurrence that [endswith] sees is found by [find]. *)
Lemma endswith_index (file suffix : string) :
  suffix ≠ "" →
  py_endswith file suffix = true →
  ∃ i, String.index 0 suffix file = Some i ∧
       (i + String.length suffix ≤ String.length file)%nat.
Proof.
  intros Hne Hend. unfold py_endswith in Hend.
  apply andb_true_iff in Hend as [Hlen Heq].
  apply Nat.leb_le in Hlen. apply String.eqb_eq in Heq.
  destruct (String.index 0 suffix file) as [i|] eqn:Hidx.
  - exists i. split; [done|].
    pose proof (String.index_correct1 _ _ _ _ Hidx) as Hsub.
    assert (Hl : String.length (String.substring i (String.length suffix) file)
                 = String.length suffix) by (by rewrite Hsub).
    rewrite substring_length in Hl.
    assert (0 < String.length suffix)%nat
      by (destruct suffix; simpl; [done|lia]).
    lia.
  - exfalso.
    eapply (String.index_correct3 0 _ _ _ Hidx Hne); [|exact Heq]. lia.
Qed.

(** X15: for an entry that ends with [.py], the module name is what
    precedes the first occurrence of [.py] in the entry, not what precedes
    the final extension: the entry is the module name, then [.py], then
    possibly more, and [.py] occurs nowhere before that position. *)
Theorem module_name_before_first_py (file : string) :
  py_endswith file ".py" = true →
  ∃ rest,
    file = (module_name file ++ ".py" ++ rest)%string ∧
    ∀ p, (p < String.length (module_name file))%nat →
         String.substring p 3 file ≠ ".py".
Proof.
  intros Hend.
  destruct (endswith_index file ".py") as (i & Hidx & Hle); [done|done|].
  simpl in Hle.
  assert (Hname : module_name file = String.substring 0 i file).
  { unfold module_name, py_find, py_slice_to. rewrite Hend, Hidx.
    assert (Hneg : (Z.of_nat i <? 0)%Z = false) by (apply Z.ltb_ge; lia).
    rewrite Hneg. f_equal. lia. }
  assert (Hlen : String.length (module_name file) = i).
  { rewrite Hname, substring_length. lia. }
  exists (String.substring (i + 3) (String.length file - i - 3) file). split.
  - rewrite Hname.
    assert (Hsub : String.substring i 3 file = ".py")
      by apply (String.index_correct1 _ _ _ _ Hidx).
    rewrite <- Hsub, <- substring_app.
    replace (3 + (String.length file - i - 3)) with (String.length file - i)
      by lia.
    by rewrite substring_split.
  - intros p Hp. rewrite Hlen in Hp.
    apply (String.index_correct2 _ _ _ _ Hidx p); lia.
Qed.

Lemma module_name_before_first_py_witness :
  module_name "vit.pyramid.py" = "vit" ∧
  ∃ rest, "vit.pyramid.py" = ("vit" ++ ".py" ++ rest)%string.
Proof.
  destruct (module_name_before_first_py "vit.pyramid.py")
    as (rest & Hfile & _); [vm_compute; reflexivity|].
  assert (Hm : module_name "vit.pyramid.py" = "vit") by (vm_compute; reflexivity).
  rewrite Hm in Hfile. split; [exact Hm|]. exists rest. exact Hfile.
Defined.

(** ** The loop over the directory *)

Section DiscoveryProperties.

Variable import_module : string → M unit.
Variable add_args : pyclass → outcome unit.

(** X16: entries whose name starts with [_] or [.], and entries that are
    neither a [.py] file nor a directory, play no part: loading a listing
    gives the result and the state of loading only its eligible entries. *)
Theorem import_models_skips_ineligible (listing : list (string * bool))
    (namespace : string) (globals : gmap string parser) (s : registries) :
  import_models import_module add_args listing namespace globals s =
  import_models import_module add_args
    (List.filter (λ e, eligible e.1 e.2) listing) namespace globals s.
Proof.
  revert globals s. induction listing as [|[file isdir] listing IH];
    intros globals s; [done|].
  cbn [import_models List.filter fst snd].
  destruct (eligible file isdir) eqn:He; [|apply IH].
  cbn [import_models]. rewrite He.
  destruct (import_module _ s) as [[[]|e] s1]; [|done].
  destruct (in_dict _ _); [|apply IH].
  destruct (getitem (ARCH_MODEL_INV_REGISTRY s1) _); [|done].
  destruct (getitem (MODEL_REGISTRY s1) _) as [cls|]; [|done].
  destruct (add_args cls); [apply IH | done].
Qed.

(** X17: a module that registers a model under its own module name but no
    architecture for it stops the discovery: after the import,
    [ARCH_MODEL_INV_REGISTRY[model_name]] on line 221 raises [KeyError].
    The registrations of the module stay, no parser is stored and the
    remaining entries are not loaded. *)
Theorem import_models_model_without_architecture
    (file : string) (isdir : bool) (listing : list (string * bool))
    (namespace : string) (globals : gmap string parser) (s s1 : registries) :
  eligible file isdir = true →
  import_module (namespace ++ "." ++ module_name file) s = (Ok tt, s1) →
  is_Some (MODEL_REGISTRY s1 !! module_name file) →
  ARCH_MODEL_INV_REGISTRY s1 !! module_name file = None →
  import_models import_module add_args ((file, isdir) :: listing)
    namespace globals s =
    (Raise (KeyError (VStr (module_name file))), (s1, globals)).
Proof.
  intros He Himp Hm Hinv. cbn [import_models]. rewrite He, Himp.
  apply in_dict_true in Hm. rewrite Hm.
  unfold getitem. by rewrite Hinv.
Qed.

End DiscoveryProperties.

Lemma import_models_model_without_architecture_witness :
  import_models (load_module example_modules) (λ _, Ok tt)
    [("lstm.py", false); ("clocs", true)]
    "fairseq_signals.models" ∅ empty_registries =
    (Raise (KeyError (VStr "lstm")),
     (run_calls [RegisterModel "lstm" None LSTM], ∅)).
Proof.
  assert (Hn : module_name "lstm.py" = "lstm") by (vm_compute; reflexivity).
  rewrite (import_models_model_without_architecture
             (load_module example_modules) (λ _, Ok tt) "lstm.py" false
             [("clocs", true)] "fairseq_signals.models" ∅ empty_registries
             (run_calls [RegisterModel "lstm" None LSTM]));
    [by rewrite Hn | vm_compute; reflexivity | vm_compute; reflexivity
    | exists LSTM; vm_compute; reflexivity | vm_compute; reflexivity].
Defined.

(** * A checkpoint whose configuration is a Python dict *)

(** X18: the flag is forced through attribute access only.  When the
    model configuration stored in the checkpoint is a plain Python dict,
    [hasattr] is false whatever its keys, so the dict is handed to
    [build_model] unchanged, also when it holds
    [no_pretrained_weights = False]. *)
Theorem plain_dict_checkpoint_not_forced {task weights instance : Type}
    (merge_with_parent : fields → cfg → bool → outcome cfg)
    (populate_dataclass : fields → cfg → outcome cfg)
    (cls_build_model : pyclass → cfg → option task → outcome instance)
    (load_checkpoint_to_cpu : string → outcome (checkpoint weights))
    (load_state_dict : instance → weights → outcome instance)
    (checkpoint_path : string) (items : fields) (w : weights)
    (s : registries) :
  load_checkpoint_to_cpu checkpoint_path = Ok (Checkpoint (PlainDict items) w) →
  build_model_from_checkpoint merge_with_parent populate_dataclass
    cls_build_model load_checkpoint_to_cpu load_state_dict checkpoint_path s =
  build_model merge_with_parent populate_dataclass cls_build_model
    load_checkpoint_to_cpu load_state_dict (PlainDict items) None true
    (Some checkpoint_path) s.
Proof.
  intros Hload. rewrite build_model_from_checkpoint_eq, Hload. done.
Qed.

Lemma plain_dict_checkpoint_not_forced_witness :
  build_model_from_checkpoint spec_merge_with_parent spec_populate_dataclass
    sym_build_model
    (sym_load_checkpoint
       {[ "dict.pt" :=
            Checkpoint
              (PlainDict [("_name", VStr "ecg_resnet");
                          ("no_pretrained_weights", VBool false)])
              "weights" ]})
    sym_load_state_dict "dict.pt" (run_calls zoo_calls) =
  Ok (SymInstance ECGResNet
        (DictConfig [("_name", VStr "ecg_resnet"); ("embed_dim", VInt 256);
                     ("no_pretrained_weights", VBool false)])
        None (Some "weights")).
Proof.
  rewrite (plain_dict_checkpoint_not_forced spec_merge_with_parent
             spec_populate_dataclass sym_build_model _ sym_load_state_dict
             "dict.pt"
             [("_name", VStr "ecg_resnet");
              ("no_pretrained_weights", VBool false)] "weights");
    vm_compute; reflexivity.
Defined.

(** * Properties of the manifest converter *)

(** ** The records seen so far *)

Lemma folders_in_order_snoc (recs : list manifest_record) (r : manifest_record) :
  folders_in_order (recs ++ [r]) =
    if decide (rec_folder r ∈ folders_in_order recs) then folders_in_order recs
    else (folders_in_order recs ++ [rec_folder r])%list.
Proof. unfold folders_in_order. by rewrite foldl_app. Qed.

Lemma folders_in_order_NoDup (recs : list manifest_record) :
  NoDup (folders_in_order recs).
Proof.
  induction recs as [|r recs IH] using rev_ind; [constructor|].
  rewrite folders_in_order_snoc. case_decide; [done|].
  apply NoDup_app. split_and!; [done | | apply NoDup_singleton].
  intros x Hx Hr. apply list_elem_of_singleton in Hr. by subst.
Qed.

Lemma folders_in_order_elem (recs : list manifest_record) (f : string) :
  f ∈ folders_in_order recs ↔ ∃ r, r ∈ recs ∧ rec_folder r = f.
Proof.
  induction recs as [|r recs IH] using rev_ind.
  - split; [by intros ?%elem_of_nil | by intros (r & ?%elem_of_nil & _)].
  - rewrite folders_in_order_snoc. case_decide as Hin.
    + rewrite IH. split.
      * intros (r' & Hr' & Hf). exists r'. split; [|done].
        apply elem_of_app. by left.
      * intros (r' & Hr' & Hf). apply elem_of_app in Hr' as [Hr' | Hr'].
        -- eauto.
        -- apply list_elem_of_singleton in Hr'. subst r'. subst f.
           by apply IH.
    + rewrite elem_of_app, IH, list_elem_of_singleton. split.
      * intros [(r' & Hr' & Hf) | ->].
        -- exists r'. split; [|done]. apply elem_of_app. by left.
        -- exists r. split; [|done]. apply elem_of_app. right.
           by apply list_elem_of_singleton.
      * intros (r' & Hr' & Hf). apply elem_of_app in Hr' as [Hr' | Hr'].
        -- left. eauto.
        -- apply list_elem_of_singleton in Hr'. subst r'. by right.
Qed.

Lemma folder_segments_snoc (f : string) (recs : list manifest_record)
    (r : manifest_record) :
  folder_segments f (recs ++ [r]) =
    (folder_segments f recs ++
     if decide (rec_folder r = f) then [rec_segment r] else [])%list.
Proof.
  unfold folder_segments. rewrite filter_app, fmap_app. f_equal.
  rewrite filter_cons, filter_nil. by case_decide.
Qed.

Lemma folder_segments_nil (f : string) (recs : list manifest_record) :
  f ∉ folders_in_order recs → folder_segments f recs = [].
Proof.
  intros Hf. unfold folder_segments.
  assert (Hnil : filter (λ r, rec_folder r = f) recs = []).
  { destruct (filter (λ r, rec_folder r = f) recs) as [|r l] eqn:Hfl; [done|].
    assert (Hr : r ∈ filter (λ r, rec_folder r = f) recs)
      by (rewrite Hfl; apply elem_of_cons; by left).
    apply list_elem_of_filter in Hr as [Heq Hr].
    destruct Hf. apply folders_in_order_elem. eauto. }
  by rewrite Hnil.
Qed.

Lemma folder_size_snoc (f : string) (recs : list manifest_record)
    (r : manifest_record) :
  folder_size f (recs ++ [r]) =
    if decide (rec_folder r = f) then Some (rec_size r) else folder_size f recs.
Proof.
  unfold folder_size. rewrite filter_app, fmap_app.
  rewrite filter_cons, filter_nil. case_decide; simpl.
  - by rewrite last_snoc.
  - by rewrite app_nil_r.
Qed.

Lemma folder_size_is_Some (f : string) (recs : list manifest_record) :
  folder_segments f recs ≠ [] → is_Some (folder_size f recs).
Proof.
  unfold folder_segments, folder_size.
  destruct (filter (λ r, rec_folder r = f) recs) as [|r l] using rev_ind;
    [done|].
  intros _. rewrite fmap_app. simpl. rewrite last_snoc. eauto.
Qed.

(** ** The loop and the dictionaries *)

Lemma add_segment_spec (f : string) (seg : Z) (keys : list string)
    (F : string → list Z) :
  NoDup keys →
  add_segment f seg ((λ k, (k, F k)) <$> keys) =
    if decide (f ∈ keys)
    then (λ k, (k, if decide (f = k) then (F k ++ [seg])%list else F k)) <$> keys
    else (((λ k, (k, F k)) <$> keys) ++ [(f, [seg])])%list.
Proof.
  induction keys as [|k keys IH]; intros Hnd.
  - destruct (decide (f ∈ [])) as [Hin|Hin]; [by apply elem_of_nil in Hin|done].
  - apply NoDup_cons in Hnd as [Hk Hnd].
    rewrite !fmap_cons. cbn [add_segment].
    destruct (String.eqb k f) eqn:E.
    + apply String.eqb_eq in E. subst k.
      destruct (decide (f ∈ f :: keys)) as [Hin|Hin];
        [|destruct Hin; apply elem_of_cons; by left].
      rewrite decide_True by done. f_equal.
      apply list_fmap_ext. intros i k Hik.
      rewrite decide_False; [done|]. intros ->.
      apply Hk. by eapply list_elem_of_lookup_2.
    + apply String.eqb_neq in E. rewrite IH by done.
      destruct (decide (f ∈ keys)) as [Hin|Hin].
      * destruct (decide (f ∈ k :: keys)) as [Hin'|Hin'];
          [|destruct Hin'; apply elem_of_cons; by right].
        by rewrite decide_False by done.
      * destruct (decide (f ∈ k :: keys)) as [Hin'|Hin']; [|done].
        apply elem_of_cons in Hin' as [?|?]; congruence.
Qed.

Lemma segments_by_folder_snoc (recs : list manifest_record)
    (r : manifest_record) :
  add_segment (rec_folder r) (rec_segment r) (segments_by_folder recs) =
    segments_by_folder (recs ++ [r]).
Proof.
  unfold segments_by_folder.
  rewrite add_segment_spec by apply folders_in_order_NoDup.
  rewrite folders_in_order_snoc.
  destruct (decide (rec_folder r ∈ folders_in_order recs)) as [Hin|Hin].
  - apply list_fmap_ext. intros i k Hik.
    rewrite folder_segments_snoc. f_equal.
    destruct (decide (rec_folder r = k)); by rewrite ?app_nil_r.
  - rewrite fmap_app. simpl. f_equal.
    + apply list_fmap_ext. intros i k Hik.
      rewrite folder_segments_snoc. rewrite decide_False; [by rewrite app_nil_r|].
      intros <-. apply Hin. by eapply list_elem_of_lookup_2.
    + rewrite folder_segments_snoc, folder_segments_nil by done.
      by rewrite decide_True.
Qed.

Lemma records_state (recs : list manifest_record) :
  let st := foldl record_line (ManifestState [] ∅ []) recs in
  fnames st = rec_name <$> recs ∧
  segments st = segments_by_folder recs ∧
  ∀ f, sizes st !! f = folder_size f recs.
Proof.
  induction recs as [|r recs IH] using rev_ind.
  - simpl. split_and!; try done; intros f; by rewrite lookup_empty.
  - rewrite foldl_app. simpl. destruct IH as (Hn & Hs & Hz).
    split_and!.
    + by rewrite Hn, fmap_app.
    + by rewrite Hs, segments_by_folder_snoc.
    + intros f. rewrite folder_size_snoc. case_decide as Hf.
      * subst f. by rewrite lookup_insert_eq.
      * rewrite lookup_insert_ne by done. apply Hz.
Qed.

(** ** Splitting, searching and slicing *)

Lemma py_split_no_sep (sep : Ascii.ascii) (s : string) :
  contains_char sep s = false → py_split sep s = [s].
Proof.
  induction s as [|a s IH]; simpl; [done|].
  intros [Ha Hs]%orb_false_iff. by rewrite Ha, IH.
Qed.

Lemma py_split_app (sep : Ascii.ascii) (a b : string) :
  contains_char sep a = false →
  py_split sep (a ++ String sep b)%string = a :: py_split sep b.
Proof.
  induction a as [|x a IH]; simpl.
  - intros _. by rewrite Ascii.eqb_refl.
  - intros [Hx Ha]%orb_false_iff. by rewrite Hx, IH.
Qed.

Lemma py_rindex_absent (c : Ascii.ascii) (s : string) :
  contains_char c s = false → py_rindex c s = None.
Proof.
  induction s as [|a s IH]; simpl; [done|].
  intros [Ha Hs]%orb_false_iff. by rewrite IH, Ha.
Qed.

Lemma py_rindex_last (c : Ascii.ascii) (a rest : string) :
  contains_char c rest = false →
  py_rindex c (a ++ String c rest)%string = Some (String.length a).
Proof.
  intros Hrest. induction a as [|x a IH]; simpl.
  - by rewrite py_rindex_absent, Ascii.eqb_refl.
  - by rewrite IH.
Qed.

Lemma contains_char_app (c : Ascii.ascii) (a b : string) :
  contains_char c (a ++ b)%string = contains_char c a || contains_char c b.
Proof.
  induction a as [|x a IH]; simpl; [done|]. by rewrite IH, orb_assoc.
Qed.

Lemma length_app (a b : string) :
  String.length (a ++ b)%string = String.length a + String.length b.
Proof. induction a as [|x a IH]; simpl; [done|]. by rewrite IH. Qed.

Lemma append_assoc (a b c : string) :
  ((a ++ b) ++ c)%string = (a ++ (b ++ c))%string.
Proof.
  induction a as [|x a IH]; [done|]. rewrite !append_cons. by rewrite IH.
Qed.

Lemma substring_app_l (a b : string) :
  String.substring 0 (String.length a) (a ++ b)%string = a.
Proof.
  induction a as [|x a IH]; simpl; [by destruct b|]. by rewrite IH.
Qed.

Lemma substring_app_r (a b : string) (k : nat) :
  String.substring (String.length a) k (a ++ b)%string = String.substring 0 k b.
Proof. induction a as [|x a IH]; simpl; [done|]. apply IH. Qed.

Lemma py_slice_prefix (a b : string) :
  py_slice (a ++ b)%string 0 (Z.of_nat (String.length a)) = a.
Proof.
  unfold py_slice. rewrite length_app.
  assert (H1 : (0 <? 0)%Z = false) by done.
  assert (H2 : (Z.of_nat (String.length a) <? 0)%Z = false)
    by (apply Z.ltb_ge; lia).
  rewrite H1, H2.
  replace (Z.to_nat (Z.min 0 _)) with 0 by lia.
  replace (Z.to_nat _) with (String.length a) by lia.
  apply substring_app_l.
Qed.

Lemma py_slice_middle (a d e : string) (c : Ascii.ascii) :
  String.length e = 4 →
  py_slice (a ++ String c (d ++ e))%string
    (Z.of_nat (String.length a) + 1) (-4) = d.
Proof.
  intros He. unfold py_slice.
  rewrite length_app. cbn [String.length]. rewrite length_app, He.
  assert (H1 : (Z.of_nat (String.length a) + 1 <? 0)%Z = false)
    by (apply Z.ltb_ge; lia).
  assert (H2 : (-4 <? 0)%Z = true) by done.
  rewrite H1, H2.
  replace (Z.to_nat (Z.min _ _)) with (String.length (a ++ String c "")%string)
    by (rewrite length_app; simpl; lia).
  replace (Z.to_nat _) with (String.length d) by lia.
  replace (a ++ String c (d ++ e))%string
    with ((a ++ String c "") ++ (d ++ e))%string
    by (by rewrite append_assoc).
  rewrite substring_app_r. apply substring_app_l.
Qed.

(** ** Reading and writing *)

Section ConverterProperties.

Variable strip : string → string.
Variable int : string → outcome Z.

Lemma convert_eq (content : list string) (ext : string) :
  convert strip int content ext =
    st ← read_lines strip int (tl content) (ManifestState [] ∅ []);
    groups ← write_groups (sizes st) (segments st);
    mret (strip (hd EmptyString content) :: ext :: groups).
Proof. reflexivity. Qed.

Lemma parse_line_eq (line : string) :
  parse_line strip int line =
    match py_split tab_char (strip line) with
    | [name; size] =>
        match py_rindex underscore name with
        | None => Raise (ValueError [Text "substring not found"])
        | Some i =>
            segment ← int (py_slice name (Z.of_nat i + 1) (-4));
            mret (ManifestRecord name (py_slice name 0 (Z.of_nat i)) size
                    segment)
        end
    | _ => Raise (AssertionError [Text line])
    end.
Proof. reflexivity. Qed.

Local Abbreviation parse_line := (parse_line strip int).
Local Abbreviation read_lines := (read_lines strip int).
Local Abbreviation convert := (convert strip int).

Lemma read_lines_ok (lines : list string) (recs : list manifest_record)
    (st : manifest_state) :
  Forall2 (λ l r, parse_line l = Ok r) lines recs →
  read_lines lines st = Ok (foldl record_line st recs).
Proof.
  intros H. revert st. induction H as [|l r lines recs Hl _ IH]; intros st;
    [done|].
  simpl. rewrite Hl. simpl. apply IH.
Qed.

Lemma read_lines_raise (pre post : list string) (l : string)
    (recs : list manifest_record) (e : exn) (st : manifest_state) :
  Forall2 (λ l r, parse_line l = Ok r) pre recs →
  parse_line l = Raise e →
  read_lines (pre ++ l :: post) st = Raise e.
Proof.
  intros H He. revert st. induction H as [|l' r pre recs Hl _ IH]; intros st.
  - simpl. by rewrite He.
  - simpl. rewrite Hl. simpl. apply IH.
Qed.

Lemma read_lines_cases (lines : list string) (st : manifest_state) :
  (∃ recs, Forall2 (λ l r, parse_line l = Ok r) lines recs) ∨
  (∃ pre l post recs e,
     lines = (pre ++ l :: post)%list ∧
     Forall2 (λ l r, parse_line l = Ok r) pre recs ∧
     parse_line l = Raise e).
Proof.
  induction lines as [|l lines IH].
  - left. exists []. constructor.
  - destruct (parse_line l) as [r|e] eqn:Hl.
    + destruct IH as [[recs H] | (pre & l' & post & recs & e & -> & H & He)].
      * left. exists (r :: recs). by constructor.
      * right. exists (l :: pre), l', post, (r :: recs), e.
        split_and!; [done | by constructor | done].
    + right. exists [], l, lines, [], e. split_and!; [done | constructor | done].
Qed.

Lemma write_groups_spec (recs : list manifest_record)
    (sz : gmap string string) (keys : list string) :
  (∀ f, sz !! f = folder_size f recs) →
  write_groups sz ((λ f, (f, folder_segments f recs)) <$> keys) =
    Ok (format_group <$>
          omap (λ folder,
                  let segs := folder_segments folder recs in
                  if Nat.leb (length segs) 1 then None
                  else Some (folder,
                             default EmptyString (folder_size folder recs),
                             merge_sort Z.le segs)) keys).
Proof.
  intros Hsz. induction keys as [|k keys IH]; [done|].
  rewrite fmap_cons. cbn [write_groups omap list_omap].
  destruct (Nat.leb (length (folder_segments k recs)) 1) eqn:Hlen; [apply IH|].
  destruct (folder_size_is_Some k recs) as [size Hsize].
  { intros Hnil. by rewrite Hnil in Hlen. }
  unfold getitem. rewrite Hsz, Hsize. simpl. rewrite IH. done.
Qed.

Lemma convert_records (content : list string) (ext : string)
    (recs : list manifest_record) :
  Forall2 (λ l r, parse_line l = Ok r) (tl content) recs →
  convert content ext =
    Ok (strip (hd EmptyString content) :: ext
        :: (format_group <$> groups_of recs)).
Proof.
  intros H. rewrite convert_eq, (read_lines_ok _ _ _ H). simpl.
  destruct (records_state recs) as (_ & Hseg & Hsz).
  rewrite Hseg. unfold segments_by_folder.
  rewrite (write_groups_spec recs _ _ Hsz). done.
Qed.

Lemma parsed_records (lines : list string) :
  Forall (λ l, ∃ r, parse_line l = Ok r) lines ↔
  ∃ recs, Forall2 (λ l r, parse_line l = Ok r) lines recs.
Proof.
  split.
  - induction 1 as [|l lines [r Hr] _ [recs IH]].
    + exists []. constructor.
    + exists (r :: recs). by constructor.
  - intros [recs H]. induction H; constructor; eauto.
Qed.

(** X19: the converter writes all or nothing.  It produces its output
    exactly when every line after the first can be read; otherwise it
    raises the exception of the first line that cannot, and since the
    destination is opened only after the loop, nothing is written. *)
Theorem convert_all_or_nothing (content : list string) (ext : string) :
  ((∃ out, convert content ext = Ok out) ↔
   Forall (λ l, ∃ r, parse_line l = Ok r) (tl content)) ∧
  (∀ pre l post e,
     tl content = (pre ++ l :: post)%list →
     Forall (λ l, ∃ r, parse_line l = Ok r) pre →
     parse_line l = Raise e →
     convert content ext = Raise e).
Proof.
  split.
  - split.
    + intros [out Hout]. apply parsed_records.
      destruct (read_lines_cases (tl content) (ManifestState [] ∅ []))
        as [Hok | (pre & l & post & recs & e & Heq & Hpre & He)]; [done|].
      rewrite convert_eq, Heq in Hout.
      by rewrite (read_lines_raise _ _ _ _ _ _ Hpre He) in Hout.
    + intros [recs H]%parsed_records.
      rewrite (convert_records _ _ _ H). eauto.
  - intros pre l post e Heq [recs Hpre]%parsed_records He.
    rewrite convert_eq, Heq.
    by rewrite (read_lines_raise _ _ _ _ _ _ Hpre He).
Qed.

(** X20: what the loop over the two dictionaries computes.  When the
    lines after the first read as the records [recs], the output is the
    stripped first line, then [ext], then one line
    [folder TAB size TAB segments] for each folder with more than one
    record, the folders in the order of their first record, the size
    that of the folder's last record, and the segments those of the
    folder's records in ascending order, joined by commas. *)
Theorem convert_groups_by_folder (content : list string) (ext : string)
    (recs : list manifest_record) :
  Forall2 (λ l r, parse_line l = Ok r) (tl content) recs →
  convert content ext =
    Ok (strip (hd EmptyString content) :: ext
        :: (format_group <$> groups_of recs)).
Proof. apply convert_records. Qed.

Lemma groups_of_elem (recs : list manifest_record)
    (g : string * string * list Z) :
  g ∈ groups_of recs ↔
  g.1.1 ∈ folders_in_order recs ∧
  Nat.leb (length (folder_segments g.1.1 recs)) 1 = false ∧
  g.1.2 = default EmptyString (folder_size g.1.1 recs) ∧
  g.2 = merge_sort Z.le (folder_segments g.1.1 recs).
Proof.
  unfold groups_of. rewrite list_elem_of_omap. split.
  - intros (f & Hf & Hg). simpl in Hg.
    destruct (Nat.leb _ 1) eqn:Hlen; [done|]. by injection Hg as <-.
  - intros (Hf & Hlen & Hs & Hsort). exists g.1.1. split; [done|].
    simpl. rewrite Hlen. destruct g as [[f s] l]. simpl in *. by subst.
Qed.

Lemma groups_of_NoDup (recs : list manifest_record) :
  NoDup (groups_of recs).*1.*1.
Proof.
  unfold groups_of.
  pose proof (folders_in_order_NoDup recs) as Hnd.
  induction (folders_in_order recs) as [|k keys IH]; [constructor|].
  apply NoDup_cons in Hnd as [Hk Hnd]. cbn [omap list_omap].
  destruct (Nat.leb _ 1); [by apply IH|].
  rewrite !fmap_cons. simpl. apply NoDup_cons. split; [|by apply IH].
  intros Hin. apply Hk.
  apply list_elem_of_fmap in Hin as (p & -> & Hp).
  apply list_elem_of_fmap in Hp as (g & -> & Hg).
  apply list_elem_of_omap in Hg as (f & Hf & Hg). simpl in Hg.
  destruct (Nat.leb _ 1); [done|]. by injection Hg as <-.
Qed.

(** X21: the groups of the converted manifest.  When the lines after the
    first read as the records [recs], the lines printed after the two
    header lines are the formatted groups of a list in which no folder
    occurs twice, a folder occurs exactly when at least two records belong
    to it, the segments of a group are in ascending order and are exactly
    the segments of the folder's records, and the size of a group is the
    size field of the folder's last record. *)
Theorem convert_groups_are_sorted (content : list string) (ext : string)
    (recs : list manifest_record) :
  Forall2 (λ l r, parse_line l = Ok r) (tl content) recs →
  ∃ groups : list (string * string * list Z),
    convert content ext =
      Ok (strip (hd EmptyString content) :: ext :: (format_group <$> groups)) ∧
    NoDup groups.*1.*1 ∧
    (∀ f, f ∈ groups.*1.*1 ↔ (2 ≤ length (folder_segments f recs))%nat) ∧
    Forall (λ g, Sorted Z.le g.2 ∧
                 g.2 ≡ₚ folder_segments g.1.1 recs ∧
                 folder_size g.1.1 recs = Some g.1.2) groups.
Proof.
  intros H. exists (groups_of recs). split_and!.
  - by apply convert_records.
  - apply groups_of_NoDup.
  - intros f. split.
    + intros Hin. apply list_elem_of_fmap in Hin as (p & -> & Hp).
      apply list_elem_of_fmap in Hp as (g & -> & Hg).
      apply groups_of_elem in Hg as (_ & Hlen & _).
      apply Nat.leb_gt in Hlen. lia.
    + intros Hlen.
      assert (Hf : f ∈ folders_in_order recs).
      { destruct (decide (f ∈ folders_in_order recs)) as [|Hn]; [done|].
        rewrite (folder_segments_nil _ _ Hn) in Hlen. simpl in Hlen. lia. }
      apply list_elem_of_fmap.
      exists (f, default EmptyString (folder_size f recs)). split; [done|].
      apply list_elem_of_fmap.
      exists (f, default EmptyString (folder_size f recs),
              merge_sort Z.le (folder_segments f recs)).
      split; [done|]. apply groups_of_elem. simpl. split_and!; try done.
      apply Nat.leb_gt. lia.
  - apply Forall_forall. intros g Hg.
    apply groups_of_elem in Hg as (_ & Hlen & Hs & Hsort).
    rewrite Hsort. split_and!.
    + apply Sorted_merge_sort. apply _.
    + apply merge_sort_Permutation.
    + destruct (folder_size_is_Some g.1.1 recs) as [size Hsize].
      { intros Hnil. by rewrite Hnil in Hlen. }
      rewrite Hs, Hsize. done.
Qed.

(** X22: the record name the converter understands.  When the stripped
    line is [folder_digits] followed by four more characters, a tab and
    the size, with no underscore after the one before [digits] and no
    further tab, the record belongs to [folder], its segment is
    [int(digits)], and the four characters are dropped unread: they are
    not compared with [ext]. *)
Theorem parse_line_reads_record (line folder digits ext4 size : string) :
  strip line =
    ((folder ++ String underscore (digits ++ ext4)) ++ String tab_char size)%string →
  String.length ext4 = 4 →
  contains_char underscore (digits ++ ext4) = false →
  contains_char tab_char (folder ++ String underscore (digits ++ ext4)) = false →
  contains_char tab_char size = false →
  parse_line line =
    (segment ← int digits;
     mret (ManifestRecord (folder ++ String underscore (digits ++ ext4))
             folder size segment)).
Proof.
  intros Hline Hext Hus Htab Hsize.
  rewrite parse_line_eq, Hline.
  rewrite (py_split_app _ _ _ Htab), (py_split_no_sep _ _ Hsize).
  rewrite (py_rindex_last _ _ _ Hus).
  by rewrite py_slice_prefix, (py_slice_middle _ _ _ _ Hext).
Qed.

(** X23: a line that has no tab once stripped, an empty line in
    particular, stops the converter: when the lines before it can be read,
    the assertion of line 43 fails with that line as its message. *)
Theorem convert_line_without_tab (content pre post : list string)
    (l ext : string) :
  tl content = (pre ++ l :: post)%list →
  Forall (λ l, ∃ r, parse_line l = Ok r) pre →
  contains_char tab_char (strip l) = false →
  convert content ext = Raise (AssertionError [Text l]).
Proof.
  intros Heq [recs Hpre]%parsed_records Htab.
  rewrite convert_eq, Heq.
  rewrite (read_lines_raise _ _ _ _ (AssertionError [Text l]) _ Hpre); [done|].
  by rewrite parse_line_eq, (py_split_no_sep _ _ Htab).
Qed.

End ConverterProperties.

(** ** The converter on the example manifest *)

Lemma convert_groups_by_folder_witness :
  convert char_strip char_int example_manifest "mat" =
    Ok ["/data/ecg"; "mat"; ("a" ++ tab ++ "120" ++ tab ++ "1,2,10")%string].
Proof.
  rewrite (convert_groups_by_folder char_strip char_int example_manifest "mat"
             [ManifestRecord "a_2.mat" "a" "100" 2;
              ManifestRecord "b_1.mat" "b" "250" 1;
              ManifestRecord "a_1.mat" "a" "100" 1;
              ManifestRecord "a_10.mat" "a" "120" 10]).
  - vm_compute. reflexivity.
  - repeat constructor.
Defined.

Lemma convert_groups_are_sorted_witness :
  ∃ groups : list (string * string * list Z),
    convert char_strip char_int example_manifest "mat" =
      Ok ("/data/ecg" :: "mat" :: (format_group <$> groups)) ∧
    NoDup groups.*1.*1 ∧
    Forall (λ g, Sorted Z.le g.2) groups.
Proof.
  destruct (convert_groups_are_sorted char_strip char_int example_manifest
              "mat"
              [ManifestRecord "a_2.mat" "a" "100" 2;
               ManifestRecord "b_1.mat" "b" "250" 1;
               ManifestRecord "a_1.mat" "a" "100" 1;
               ManifestRecord "a_10.mat" "a" "120" 10])
    as (groups & Hout & Hnd & _ & Hall); [repeat constructor|].
  exists groups. split_and!; [exact Hout | exact Hnd |].
  eapply Forall_impl; [exact Hall|]. by intros g (Hs & _).
Defined.

Lemma parse_line_reads_record_witness :
  parse_line char_strip char_int ("rec42_7.xyz" ++ tab ++ "5000" ++ newline)%string =
    Ok (ManifestRecord "rec42_7.xyz" "rec42" "5000" 7).
Proof.
  rewrite (parse_line_reads_record char_strip char_int _ "rec42" "7" ".xyz"
             "5000"); vm_compute; reflexivity.
Defined.

Lemma convert_line_without_tab_witness :
  convert char_strip char_int (example_manifest ++ [newline]) "mat" =
    Raise (AssertionError [Text newline]).
Proof.
  apply (convert_line_without_tab char_strip char_int
           (example_manifest ++ [newline]) (tl example_manifest) [] newline
           "mat").
  - reflexivity.
  - repeat constructor; eexists; vm_compute; reflexivity.
  - vm_compute. reflexivity.
Defined.
